(** * WaveView: a shallow embedding of [app.py]

    The surf-conditions backend is embedded function by function.  Python
    dictionaries that are passed around as conditions records are finite maps
    from field names to dynamically typed values; the location registry keeps
    its insertion order as an association list; exceptions are an explicit
    result type; randomness, the clock, the two remote services and standard
    output are threaded through a small state-and-error monad. *)

From Stdlib Require Import QArith Sorted Permutation.
From stdpp Require Import gmap strings list fin_maps.

Set Warnings "-register-all".
Local Open Scope string_scope.

(** ** Dynamically typed values *)

(** A Python [float].  A finite one is kept as the rational it denotes (the
    program only compares floats and adds small integers, both of which are
    exact on those); the three special floats are separate constructors. *)
Inductive pyfloat :=
  | Fin (q : Q)
  | PosInf
  | NegInf
  | NaN.

(** The values that can sit in a conditions dictionary or in a decoded JSON
    payload. *)
Inductive value :=
  | VNone
  | VBool (b : bool)
  | VInt (z : Z)
  | VFloat (x : pyfloat)
  | VStr (s : string)
  | VList (l : list value)
  | VDict (d : gmap string value).

Abbreviation dict := (gmap string value).

(** A float literal such as [3.0]. *)
Definition VLit (q : Q) : value := VFloat (Fin q).

(** [type(v).__name__], as it appears in error messages. *)
Definition type_name (v : value) : string :=
  match v with
  | VNone => "NoneType"
  | VBool _ => "bool"
  | VInt _ => "int"
  | VFloat _ => "float"
  | VStr _ => "str"
  | VList _ => "list"
  | VDict _ => "dict"
  end.

(** ** Exceptions and results *)

Inductive exn :=
  | KeyError (msg : string)
  | TypeError (msg : string)
  | AttributeError (msg : string)
  | IndexError (msg : string)
  | ValueError (msg : string)
  | ServiceError (msg : string).

(** [str(e)] *)
Definition str_exn (e : exn) : string :=
  match e with
  | KeyError m | TypeError m | AttributeError m
  | IndexError m | ValueError m | ServiceError m => m
  end.

Inductive result (A : Type) :=
  | Ok (a : A)
  | Raise (e : exn).
Arguments Ok {A} a.
Arguments Raise {A} e.

Definition bind_r {A B} (m : result A) (k : A -> result B) : result B :=
  match m with
  | Ok a => k a
  | Raise e => Raise e
  end.

Notation "'let?' x := m 'in' k" := (bind_r m (fun x => k))
  (at level 10, x name, m at level 100, k at level 200).

(** ** Primitive operations on values *)

(** [d[k]] on a dictionary: the [KeyError] message is the [repr] of the key. *)
Definition getitem (d : dict) (k : string) : result value :=
  match d !! k with
  | Some v => Ok v
  | None => Raise (KeyError ("'" ++ k ++ "'"))
  end.

(** The numeric reading of a value in an ordering comparison against a float:
    floats are themselves, integers their exact value (Python compares an
    [int] with a [float] exactly), booleans are 0 and 1, everything else has
    none. *)
Definition as_number (v : value) : option pyfloat :=
  match v with
  | VFloat x => Some x
  | VInt z => Some (Fin (inject_Z z))
  | VBool true => Some (Fin 1)
  | VBool false => Some (Fin 0)
  | _ => None
  end.

(** IEEE ordering: anything against NaN is false. *)
Definition float_le (a b : pyfloat) : bool :=
  match a, b with
  | NaN, _ | _, NaN => false
  | NegInf, _ => true
  | _, PosInf => true
  | Fin x, Fin y => Qle_bool x y
  | _, _ => false
  end.

Definition unsupported (op l r : string) : exn :=
  TypeError ("'" ++ op ++ "' not supported between instances of '"
                 ++ l ++ "' and '" ++ r ++ "'").

(** [c <= v] with a float literal on the left. *)
Definition float_le_value (c : Q) (v : value) : result bool :=
  match as_number v with
  | Some n => Ok (float_le (Fin c) n)
  | None => Raise (unsupported "<=" "float" (type_name v))
  end.

(** [v <= c] with a float literal on the right. *)
Definition value_le_float (v : value) (c : Q) : result bool :=
  match as_number v with
  | Some n => Ok (float_le n (Fin c))
  | None => Raise (unsupported "<=" (type_name v) "float")
  end.

(** [v >= c] with a float literal on the right. *)
Definition value_ge_float (v : value) (c : Q) : result bool :=
  match as_number v with
  | Some n => Ok (float_le (Fin c) n)
  | None => Raise (unsupported ">=" (type_name v) "float")
  end.

(** The chained comparison [lo <= v <= hi]: the second test runs only when the
    first one holds. *)
Definition chained_le (lo : Q) (v : value) (hi : Q) : result bool :=
  let? b := float_le_value lo v in
  if b then value_le_float v hi else Ok false.

(** [a and b] on comparisons: [b] is evaluated only when [a] is true. *)
Definition and_then (a : result bool) (b : result bool) : result bool :=
  let? x := a in if x then b else Ok false.

Definition Qlt_bool (x y : Q) : bool := negb (Qle_bool y x).

(** [min(a, b)] on two floats: the first argument unless the second is
    strictly smaller. *)
Definition py_min (a b : Q) : Q := if Qlt_bool b a then b else a.

(** ** The quality scorer *)

(** The body of [calculate_wave_quality] up to, but not including, the final
    cap: the running [score] after the four factors.  All sums are sums of
    small integers, which binary64 addition performs exactly. *)
Definition raw_score (surf_data : dict) : result Q :=
  let score := 0%Q in
  (* Wave height factor *)
  let? wave_height := getitem surf_data "wave_height" in
  let? score :=
    (let? c := chained_le 3 wave_height 8 in
     if c then Ok (score + 30)%Q
     else let? c := chained_le 2 wave_height 10 in
          if c then Ok (score + 20)%Q else Ok (score + 10)%Q) in
  (* Wave period factor *)
  let? wave_period := getitem surf_data "wave_period" in
  let? score :=
    (let? c := chained_le 10 wave_period 16 in
     if c then Ok (score + 25)%Q
     else let? c := chained_le 8 wave_period 18 in
          if c then Ok (score + 15)%Q else Ok (score + 5)%Q) in
  (* Wind factor *)
  let? wind_speed := getitem surf_data "wind_speed" in
  let? score :=
    (let? c := value_le_float wind_speed 10 in
     if c then Ok (score + 25)%Q
     else let? c := value_le_float wind_speed 15 in
          if c then Ok (score + 15)%Q else Ok (score + 5)%Q) in
  (* Swell consistency factor *)
  let? swell_height := getitem surf_data "swell_height" in
  let? swell_period := getitem surf_data "swell_period" in
  let? score :=
    (let? c := and_then (value_ge_float swell_height 3)
                        (value_ge_float swell_period 10) in
     if c then Ok (score + 20)%Q else Ok (score + 10)%Q) in
  Ok score.

Definition calculate_wave_quality (surf_data : dict) : result Q :=
  let? score := raw_score surf_data in
  Ok (py_min score 100).

(** ** The location registry *)

Record Location := {
  name : string;
  lat : Q;
  lon : Q;
  description : string
}.

(** [SURF_LOCATIONS]: a dictionary literal, kept in insertion order because
    the rankings iterate over its keys. *)
Definition SURF_LOCATIONS : list (string * Location) :=
  [ ("malibu",
     {| name := "Malibu"; lat := 340370 # 10000; lon := - (1186770 # 10000);
        description := "Famous point break in Southern California" |});
    ("pipeline",
     {| name := "Pipeline"; lat := 216644 # 10000; lon := - (1580533 # 10000);
        description := "World-famous reef break on North Shore" |});
    ("teahupoo",
     {| name := "Teahupoo"; lat := - (178444 # 10000); lon := - (1492672 # 10000);
        description := "Heavy reef break known for massive barrels" |});
    ("waimea",
     {| name := "Waimea Bay"; lat := 216389 # 10000; lon := - (1580667 # 10000);
        description := "Big wave spot on North Shore" |});
    ("jaws",
     {| name := "Jaws (Peahi)"; lat := 209333 # 10000; lon := - (1563000 # 10000);
        description := "Epic big wave spot on Maui" |}) ].

(** [reg.get(k)] *)
Fixpoint registry_get (reg : list (string * Location)) (k : string)
  : option Location :=
  match reg with
  | [] => None
  | (k', loc) :: rest => if String.eqb k' k then Some loc else registry_get rest k
  end.

(** [reg[k]] *)
Definition registry_getitem (reg : list (string * Location)) (k : string)
  : result Location :=
  match registry_get reg k with
  | Some loc => Ok loc
  | None => Raise (KeyError ("'" ++ k ++ "'"))
  end.

(** [reg.keys()] *)
Definition registry_keys (reg : list (string * Location)) : list string :=
  map fst reg.

(** ** The outside world *)

Record datetime := {
  strftime_ymd : string;   (* strftime('%Y-%m-%d') *)
  isoformat : string       (* isoformat() *)
}.

(** The arguments of the marine-data request. *)
Record request := {
  url : string;
  param_lat : Q;
  param_lng : Q;
  param_params : string;
  param_start : string;
  param_end : string;
  header_authorization : string
}.

(** What [requests.get] produces when it does not raise: the status code and
    what [response.json()] then gives (a decoded payload or a decoding
    error). *)
Record response := {
  status_code : Z;
  json : result value
}.

(** The chat-completion request: a model name, a system message, and the user
    prompt.  The prompt is an f-string; it is kept as its literal pieces and
    the interpolated values, in order. *)
Inductive piece :=
  | Text (s : string)
  | Interp (v : value).

Record chat_request := {
  chat_api_key : string;
  chat_model : string;
  chat_system : string;
  chat_user : list piece;
  chat_max_tokens : Z;
  chat_temperature : Q
}.

(** Everything the program does not decide itself, as a function of how many
    effects have happened so far ([nat]) and of what is asked. *)
Record oracle := {
  SURF_API_KEY : string;
  OPENAI_API_KEY : string;
  (* the float [round(random.uniform(a, b), ndigits)] *)
  draw_uniform_round : nat -> Q -> Q -> Z -> Q;
  (* the index picked by [random.choice] in a sequence of the given length *)
  draw_index : nat -> nat -> nat;
  clock : nat -> datetime;
  (* [requests.get]: a response, or the exception it raises *)
  marine_service : nat -> request -> result response;
  (* client construction and [chat.completions.create]: the [message.content]
     of each returned choice, or the exception raised *)
  text_service : nat -> chat_request -> result (list value)
}.

Record world := {
  env : oracle;
  tick : nat;
  stdout : list string
}.

Definition advance (w : world) : world :=
  {| env := env w; tick := S (tick w); stdout := stdout w |}.

(** ** The effect monad: state passing over [world], with exceptions *)

Definition M (A : Type) : Type := world -> result A * world.

Definition ret {A} (a : A) : M A := fun w => (Ok a, w).

Definition bind {A B} (m : M A) (k : A -> M B) : M B :=
  fun w =>
    match m w with
    | (Ok a, w') => k a w'
    | (Raise e, w') => (Raise e, w')
    end.

Notation "'let!' x := m 'in' k" := (bind m (fun x => k))
  (at level 10, x name, m at level 100, k at level 200).

Definition lift {A} (r : result A) : M A := fun w => (r, w).

(** [try: body  except Exception as e: handler e] *)
Definition try_except {A} (body : M A) (handler : exn -> M A) : M A :=
  fun w =>
    match body w with
    | (Ok a, w') => (Ok a, w')
    | (Raise e, w') => handler e w'
    end.

(** [print(s)] *)
Definition print (s : string) : M unit :=
  fun w => (Ok tt, {| env := env w; tick := tick w; stdout := stdout w ++ [s] |}).

(** [datetime.now()] *)
Definition datetime_now : M datetime :=
  fun w => (Ok (clock (env w) (tick w)), advance w).

(** [round(random.uniform(a, b), ndigits)] *)
Definition random_uniform_round (a b : Q) (ndigits : Z) : M Q :=
  fun w => (Ok (draw_uniform_round (env w) (tick w) a b ndigits), advance w).

(** [random.choice(seq)] *)
Definition random_choice (seq : list string) : M string :=
  fun w =>
    match seq !! (draw_index (env w) (tick w) (length seq) mod length seq)%nat with
    | Some s => (Ok s, advance w)
    | None => (Raise (IndexError "Cannot choose from an empty sequence"), advance w)
    end.

(** [requests.get(url, params=params, headers=headers)] *)
Definition requests_get (rq : request) : M response :=
  fun w => (marine_service (env w) (tick w) rq, advance w).

(** [OpenAI(api_key=...).chat.completions.create(...)] *)
Definition chat_completions_create (rq : chat_request) : M (list value) :=
  fun w => (text_service (env w) (tick w) rq, advance w).

Definition surf_api_key : M string := fun w => (Ok (SURF_API_KEY (env w)), w).
Definition openai_api_key : M string := fun w => (Ok (OPENAI_API_KEY (env w)), w).

(** ** Conditions records *)

(** The twelve-key dictionary literal that both [get_surf_data_from_api] and
    [generate_mock_surf_data] return. *)
Definition conditions_dict
  (location_name wave_height wave_period wave_direction wind_speed
   wind_direction temperature swell_height swell_period swell_direction
   tide_height timestamp : value) : dict :=
  <["location_name" := location_name]>
  (<["wave_height" := wave_height]>
  (<["wave_period" := wave_period]>
  (<["wave_direction" := wave_direction]>
  (<["wind_speed" := wind_speed]>
  (<["wind_direction" := wind_direction]>
  (<["temperature" := temperature]>
  (<["swell_height" := swell_height]>
  (<["swell_period" := swell_period]>
  (<["swell_direction" := swell_direction]>
  (<["tide_height" := tide_height]>
  (<["timestamp" := timestamp]> ∅))))))))))).

Definition FIELDS : list string :=
  [ "location_name"; "wave_height"; "wave_period"; "wave_direction";
    "wind_speed"; "wind_direction"; "temperature"; "swell_height";
    "swell_period"; "swell_direction"; "tide_height"; "timestamp" ].

(** A conditions record with every field of its declared type. *)
Record ConditionsRecord := {
  cr_location_name : string;
  cr_wave_height : pyfloat;
  cr_wave_period : pyfloat;
  cr_wave_direction : string;
  cr_wind_speed : pyfloat;
  cr_wind_direction : string;
  cr_temperature : pyfloat;
  cr_swell_height : pyfloat;
  cr_swell_period : pyfloat;
  cr_swell_direction : string;
  cr_tide_height : pyfloat;
  cr_timestamp : string
}.

Definition to_dict (r : ConditionsRecord) : dict :=
  conditions_dict
    (VStr (cr_location_name r)) (VFloat (cr_wave_height r))
    (VFloat (cr_wave_period r)) (VStr (cr_wave_direction r))
    (VFloat (cr_wind_speed r)) (VStr (cr_wind_direction r))
    (VFloat (cr_temperature r)) (VFloat (cr_swell_height r))
    (VFloat (cr_swell_period r)) (VStr (cr_swell_direction r))
    (VFloat (cr_tide_height r)) (VStr (cr_timestamp r)).

Definition with_wind_speed (x : pyfloat) (r : ConditionsRecord) : ConditionsRecord :=
  {| cr_location_name := cr_location_name r;
     cr_wave_height := cr_wave_height r;
     cr_wave_period := cr_wave_period r;
     cr_wave_direction := cr_wave_direction r;
     cr_wind_speed := x;
     cr_wind_direction := cr_wind_direction r;
     cr_temperature := cr_temperature r;
     cr_swell_height := cr_swell_height r;
     cr_swell_period := cr_swell_period r;
     cr_swell_direction := cr_swell_direction r;
     cr_tide_height := cr_tide_height r;
     cr_timestamp := cr_timestamp r |}.

(** ** The synthetic conditions generator *)

Definition COMPASS_WAVE : list string :=
  ["SW"; "W"; "NW"; "N"; "NE"; "E"; "SE"; "S"].
Definition COMPASS_WIND : list string :=
  ["N"; "NE"; "E"; "SE"; "S"; "SW"; "W"; "NW"].

Definition generate_mock_surf_data (location : Location) : M dict :=
  let! wave_height := random_uniform_round 2 12 1 in
  let! wave_period := random_uniform_round 8 18 1 in
  let location_name := VStr (name location) in
  let! wave_direction := random_choice COMPASS_WAVE in
  let! wind_speed := random_uniform_round 5 25 1 in
  let! wind_direction := random_choice COMPASS_WIND in
  let! temperature := random_uniform_round 15 30 1 in
  let! swell_direction := random_choice COMPASS_WAVE in
  let! tide_height := random_uniform_round (- (1 # 2)) (5 # 2) 2 in
  let! now := datetime_now in
  ret (conditions_dict
         location_name
         (VLit wave_height)
         (VLit wave_period)
         (VStr wave_direction)
         (VLit wind_speed)
         (VStr wind_direction)
         (VLit temperature)
         (VLit wave_height)
         (VLit wave_period)
         (VStr swell_direction)
         (VLit tide_height)
         (VStr (isoformat now))).

(** ** The conditions fetcher *)

Definition not_subscriptable (v : value) : exn :=
  TypeError ("'" ++ type_name v ++ "' object is not subscriptable").

(** [v[k]] with a string key [k]. *)
Definition subscript_key (v : value) (k : string) : result value :=
  match v with
  | VDict d => getitem d k
  | VList _ => Raise (TypeError "list indices must be integers or slices, not str")
  | VStr _ => Raise (TypeError "string indices must be integers, not 'str'")
  | _ => Raise (not_subscriptable v)
  end.

(** [v[0]].  A decoded JSON object has string keys only, so the integer key
    is never found in one. *)
Definition subscript_zero (v : value) : result value :=
  match v with
  | VList (x :: _) => Ok x
  | VList [] => Raise (IndexError "list index out of range")
  | VStr (String c _) => Ok (VStr (String c EmptyString))
  | VStr EmptyString => Raise (IndexError "string index out of range")
  | VDict _ => Raise (KeyError "0")
  | _ => Raise (not_subscriptable v)
  end.

Definition float_is_zero (x : pyfloat) : bool :=
  match x with
  | Fin q => Qeq_bool q 0
  | _ => false
  end.

(** [bool(v)] *)
Definition truthy (v : value) : bool :=
  match v with
  | VNone => false
  | VBool b => b
  | VInt z => negb (z =? 0)%Z
  | VFloat x => negb (float_is_zero x)
  | VStr s => negb (String.eqb s "")
  | VList l => match l with [] => false | _ => true end
  | VDict d => match map_to_list d with [] => false | _ => true end
  end.

(** [v.get(k, dflt)]: only dictionaries have the method. *)
Definition value_get (v : value) (k : string) (dflt : value) : result value :=
  match v with
  | VDict d => Ok (default dflt (d !! k))
  | _ => Raise (AttributeError
                  ("'" ++ type_name v ++ "' object has no attribute 'get'"))
  end.

(** [current.get(metric, {}).get('noaa', dflt)] *)
Definition noaa (current : value) (metric : string) (dflt : value)
  : result value :=
  let? by_source := value_get current metric (VDict ∅) in
  value_get by_source "noaa" dflt.

Definition METRICS : string :=
  "waveHeight,wavePeriod,waveDirection,windSpeed,windDirection,airTemperature,waterTemperature".

(** The [try] block of [get_surf_data_from_api]. *)
Definition fetch_from_provider (location_id : string) : M dict :=
  match registry_get SURF_LOCATIONS location_id with
  | None => lift (Raise (ValueError ("Location " ++ location_id ++ " not found")))
  | Some location =>
      let! start := datetime_now in
      let! end_ := datetime_now in
      let! key := surf_api_key in
      let! response :=
        requests_get
          {| url := "https://api.stormglass.io/v2/weather/point";
             param_lat := lat location;
             param_lng := lon location;
             param_params := METRICS;
             param_start := strftime_ymd start;
             param_end := strftime_ymd end_;
             header_authorization := key |} in
      if (status_code response =? 200)%Z then
        let! data := lift (json response) in
        let! current :=
          lift (let? rows := subscript_key data "data" in
                if truthy rows
                then let? rows := subscript_key data "data" in subscript_zero rows
                else Ok (VDict ∅)) in
        let location_name := VStr (name location) in
        let! wave_height := lift (noaa current "waveHeight" (VLit 3)) in
        let! wave_period := lift (noaa current "wavePeriod" (VLit 10)) in
        let! wave_direction := lift (noaa current "waveDirection" (VStr "SW")) in
        let! wind_speed := lift (noaa current "windSpeed" (VLit 10)) in
        let! wind_direction := lift (noaa current "windDirection" (VStr "NW")) in
        let! temperature := lift (noaa current "airTemperature" (VLit 20)) in
        let! swell_height := lift (noaa current "waveHeight" (VLit 3)) in
        let! swell_period := lift (noaa current "wavePeriod" (VLit 10)) in
        let! swell_direction := lift (noaa current "waveDirection" (VStr "SW")) in
        let! now := datetime_now in
        ret (conditions_dict
               location_name wave_height wave_period wave_direction
               wind_speed wind_direction temperature
               swell_height swell_period swell_direction
               (VLit (1 # 2)) (VStr (isoformat now)))
      else
        generate_mock_surf_data location
  end.

(** The [except] block of [get_surf_data_from_api]. *)
Definition fetch_fallback (location_id : string) (e : exn) : M dict :=
  let! _ := print ("API Error: " ++ str_exn e) in
  let! location :=
    lift (let? dflt := registry_getitem SURF_LOCATIONS "malibu" in
          Ok (default dflt (registry_get SURF_LOCATIONS location_id))) in
  generate_mock_surf_data location.

Definition get_surf_data_from_api (location_id : string) : M dict :=
  try_except (fetch_from_provider location_id) (fetch_fallback location_id).

(** ** The narrative reporter *)

Definition SYSTEM_MESSAGE : string :=
  "You are a professional surf analyst and ASCII artist. Provide detailed, accurate surf analysis and create proportional ASCII wave visualizations.".

(** The closing, value-free part of the prompt (format instructions; the
    ASCII-art sample of the source is abridged to its first line). *)
Definition REPORT_FORMAT : string :=
  " feet
        Please provide the analysis in this EXACT format:
        **WAVE VISUALIZATION:**
        [Create an ASCII wave using this style:
         _.====.._
        **SURF ANALYSIS:**
        - Wave Quality: [analysis]
        - Difficulty Level: [analysis]
        - Conditions: [analysis]
        - Key Insights: [recommendations]
        - Safety: [considerations]
        - Best Time: [when to surf]
        ".

(** The three-key dictionary returned by the reporter. *)
Definition report_dict (analysis : value) (surf_data : dict) (timestamp : string)
  : dict :=
  <["analysis" := analysis]>
  (<["surf_data" := VDict surf_data]>
  (<["timestamp" := VStr timestamp]> ∅)).

(** The [try] block of [analyze_surf_conditions_with_gpt].  In the literal
    pieces of the prompt the line breaks and the indentation of the source are
    collapsed to single spaces and the degree sign is left out. *)
Definition analyze_try (surf_data : dict) : M dict :=
  let! location_name := lift (getitem surf_data "location_name") in
  let! wave_height := lift (getitem surf_data "wave_height") in
  let! wave_period := lift (getitem surf_data "wave_period") in
  let! wave_direction := lift (getitem surf_data "wave_direction") in
  let! wind_speed := lift (getitem surf_data "wind_speed") in
  let! wind_direction := lift (getitem surf_data "wind_direction") in
  let! temperature := lift (getitem surf_data "temperature") in
  let! swell_height := lift (getitem surf_data "swell_height") in
  let! swell_period := lift (getitem surf_data "swell_period") in
  let! swell_direction := lift (getitem surf_data "swell_direction") in
  let! tide_height := lift (getitem surf_data "tide_height") in
  let prompt :=
    [ Text "You are a professional surf analyst and ASCII artist. Analyze these surf conditions and create a detailed report: Location: ";
      Interp location_name;
      Text " Wave Height: "; Interp wave_height;
      Text " feet Wave Period: "; Interp wave_period;
      Text " seconds Wave Direction: "; Interp wave_direction;
      Text " Wind Speed: "; Interp wind_speed;
      Text " mph Wind Direction: "; Interp wind_direction;
      Text " Temperature: "; Interp temperature;
      Text " C Swell Height: "; Interp swell_height;
      Text " feet Swell Period: "; Interp swell_period;
      Text " seconds Swell Direction: "; Interp swell_direction;
      Text " Tide: "; Interp tide_height;
      Text REPORT_FORMAT ] in
  let! key := openai_api_key in
  let! choices :=
    chat_completions_create
      {| chat_api_key := key;
         chat_model := "gpt-3.5-turbo";
         chat_system := SYSTEM_MESSAGE;
         chat_user := prompt;
         chat_max_tokens := 1000;
         chat_temperature := 7 # 10 |} in
  let! content :=
    lift (match choices with
          | c :: _ => Ok c
          | [] => Raise (IndexError "list index out of range")
          end) in
  let! now := datetime_now in
  ret (report_dict content surf_data (isoformat now)).

(** The [except] block of [analyze_surf_conditions_with_gpt]. *)
Definition analyze_except (surf_data : dict) (e : exn) : M dict :=
  let! _ := print ("GPT API Error: " ++ str_exn e) in
  let! now := datetime_now in
  ret (report_dict (VStr ("Error analyzing conditions: " ++ str_exn e))
                   surf_data (isoformat now)).

Definition analyze_surf_conditions_with_gpt (surf_data : dict) : M dict :=
  try_except (analyze_try surf_data) (analyze_except surf_data).

(** ** The rankings builder *)

(** One element of [spots_data]: a five-key dictionary literal whose keys are
    fixed, kept as a record. *)
Record spot := {
  spot_location_id : string;
  spot_location_name : value;
  spot_wave_height : value;
  quality_score : Q;
  spot_surf_data : dict
}.

(** The [try] block of the collecting loop: fetch, score, and build the entry
    for one location. *)
Definition rank_one (location_id : string) : M spot :=
  let! surf_data := get_surf_data_from_api location_id in
  let! score := lift (calculate_wave_quality surf_data) in
  let! location_name := lift (getitem surf_data "location_name") in
  let! wave_height := lift (getitem surf_data "wave_height") in
  ret {| spot_location_id := location_id;
         spot_location_name := location_name;
         spot_wave_height := wave_height;
         quality_score := score;
         spot_surf_data := surf_data |}.

(** The collecting loop over the registry keys: a location whose entry cannot
    be built is logged and skipped. *)
Fixpoint collect_spots (ids : list string) (spots_data : list spot)
  : M (list spot) :=
  match ids with
  | [] => ret spots_data
  | location_id :: rest =>
      let! spots_data :=
        try_except
          (let! entry := rank_one location_id in ret ((spots_data ++ [entry])%list))
          (fun e =>
             let! _ := print ("Error getting data for " ++ location_id
                                ++ ": " ++ str_exn e) in
             ret spots_data) in
      collect_spots rest spots_data
  end.

(** [l[i]] on a list *)
Definition list_index {A} (l : list A) (i : nat) : result A :=
  match l !! i with
  | Some x => Ok x
  | None => Raise (IndexError "list index out of range")
  end.

(** [l[i] = x] on a list *)
Definition list_assign {A} (l : list A) (i : nat) (x : A) : result (list A) :=
  if (i <? length l)%nat then Ok (<[i := x]> l)
  else Raise (IndexError "list assignment index out of range").

(** [for x in xs: s = body x s], stopping at the first exception. *)
Fixpoint for_each {S} (xs : list nat) (body : nat -> S -> result S) (s : S)
  : result S :=
  match xs with
  | [] => Ok s
  | x :: rest => let? s' := body x s in for_each rest body s'
  end.

(** The body of the inner loop: compare the neighbours at [j] and [j + 1] and
    exchange them when the left one scores strictly less. *)
Definition compare_and_swap (j : nat) (spots_data : list spot)
  : result (list spot) :=
  let? a := list_index spots_data j in
  let? b := list_index spots_data (j + 1) in
  if Qlt_bool (quality_score a) (quality_score b) then
    let? right := list_index spots_data (j + 1) in
    let? left := list_index spots_data j in
    let? spots_data := list_assign spots_data j right in
    list_assign spots_data (j + 1) left
  else Ok spots_data.

(** The two nested [for] loops. *)
Definition bubble_sort (spots_data : list spot) : result (list spot) :=
  let n := length spots_data in
  for_each (seq 0 n)
    (fun i spots_data => for_each (seq 0 (n - i - 1)) compare_and_swap spots_data)
    spots_data.

Definition sort_surf_spots_by_conditions : M (list spot) :=
  let! spots_data := collect_spots (registry_keys SURF_LOCATIONS) [] in
  lift (bubble_sort spots_data).

(** ** The web surface *)

(** What a handler function does when it is called: it returns a body, it
    raises the [HTTPException] of its [except] block, or it lets another
    exception through.  A returned body is handed to the web framework, which
    encodes it as JSON and answers; that step is library code and is not part
    of this model (it rejects a body that holds a non-finite float), so
    [Returned] speaks of the handler's return value and not of the status of
    the response. *)
Inductive outcome (A : Type) :=
  | Returned (body : A)
  | HTTPException (status : Z) (detail : string)
  | Propagated (e : exn).
Arguments Returned {A} body.
Arguments HTTPException {A} status detail.
Arguments Propagated {A} e.

Definition Handler (A : Type) : Type := world -> outcome A * world.

(** [try: body  except Exception as e: raise HTTPException(status_code=500,
    detail=str(e))], the frame shared by three handlers. *)
Definition or_500 {A} (body : M A) : Handler A :=
  fun w =>
    match body w with
    | (Ok a, w') => (Returned a, w')
    | (Raise e, w') => (HTTPException 500 (str_exn e), w')
    end.

Record locations_body := {
  locations : list string;
  location_data : list (string * Location)
}.

(** The handler of [GET /api/locations] *)
Definition get_locations : Handler locations_body :=
  fun w =>
    (Returned {| locations := registry_keys SURF_LOCATIONS;
               location_data := SURF_LOCATIONS |}, w).

(** The handler of [GET /api/surf-data/{location_id}] *)
Definition get_surf_data (location_id : string) : Handler dict :=
  or_500 (let! surf_data := get_surf_data_from_api location_id in
          ret surf_data).

(** The handler of [GET /api/analysis/{location_id}] *)
Definition get_surf_analysis (location_id : string) : Handler dict :=
  or_500 (let! surf_data := get_surf_data_from_api location_id in
          let! analysis := analyze_surf_conditions_with_gpt surf_data in
          ret analysis).

Record rankings_body := {
  rankings : list spot;
  rankings_timestamp : string
}.

(** The handler of [GET /api/rankings] *)
Definition get_surf_rankings : Handler rankings_body :=
  or_500 (let! ranked := sort_surf_spots_by_conditions in
          let! now := datetime_now in
          ret {| rankings := ranked; rankings_timestamp := isoformat now |}).

Record health_body := {
  health_status : string;
  health_timestamp : string;
  health_version : string
}.

(** The handler of [GET /api/health].  It has no [try] block: an exception,
    were reading the clock to raise one, would go through. *)
Definition health_check : Handler health_body :=
  fun w =>
    match datetime_now w with
    | (Ok now, w') =>
        (Returned {| health_status := "healthy";
                     health_timestamp := isoformat now;
                     health_version := "1.0.0" |}, w')
    | (Raise e, w') => (Propagated e, w')
    end.

(** ** Vocabulary of the statements *)

(** The points one factor can contribute. *)
Definition height_points (q : Q) : Prop := q = 30%Q \/ q = 20%Q \/ q = 10%Q.
Definition period_points (q : Q) : Prop := q = 25%Q \/ q = 15%Q \/ q = 5%Q.
Definition wind_points (q : Q) : Prop := q = 25%Q \/ q = 15%Q \/ q = 5%Q.
Definition swell_points (q : Q) : Prop := q = 20%Q \/ q = 10%Q.

(** The rule table on floats, one closed form per factor. *)
Definition height_rule (x : pyfloat) : Q :=
  if float_le (Fin 3) x && float_le x (Fin 8) then 30%Q
  else if float_le (Fin 2) x && float_le x (Fin 10) then 20%Q
  else 10%Q.
Definition period_rule (x : pyfloat) : Q :=
  if float_le (Fin 10) x && float_le x (Fin 16) then 25%Q
  else if float_le (Fin 8) x && float_le x (Fin 18) then 15%Q
  else 5%Q.
Definition wind_rule (x : pyfloat) : Q :=
  if float_le x (Fin 10) then 25%Q
  else if float_le x (Fin 15) then 15%Q
  else 5%Q.
Definition swell_rule (h p : pyfloat) : Q :=
  if float_le (Fin 3) h && float_le (Fin 10) p then 20%Q else 10%Q.

(** The five fields the scorer reads. *)
Definition SCORED_FIELDS : list string :=
  ["wave_height"; "wave_period"; "wind_speed"; "swell_height"; "swell_period"].

(** Two dictionaries hold the same thing (or both nothing) under each scored
    field. *)
Definition agree_on_scored (d1 d2 : dict) : Prop :=
  Forall (fun k => d1 !! k = d2 !! k) SCORED_FIELDS.

(** All twelve fields are present. *)
Definition all_fields_present (d : dict) : Prop :=
  Forall (fun k => is_Some (d !! k)) FIELDS.

(** All twelve fields are populated: present, and not null. *)
Definition populated (d : dict) : Prop :=
  Forall (fun k => exists v, d !! k = Some v /\ v <> VNone) FIELDS.

(** The request the fetcher makes for [loc] from world [w], and the answer
    it gets: the request carries two readings of the clock and is the third
    effect of the call. *)
Definition marine_request (loc : Location) (w : world) : request :=
  {| url := "https://api.stormglass.io/v2/weather/point";
     param_lat := lat loc;
     param_lng := lon loc;
     param_params := METRICS;
     param_start := strftime_ymd (clock (env w) (tick w));
     param_end := strftime_ymd (clock (env w) (S (tick w)));
     header_authorization := SURF_API_KEY (env w) |}.

Definition marine_answer (loc : Location) (w : world) : result response :=
  marine_service (env w) (S (S (tick w))) (marine_request loc w).

(** The metrics the fetcher reads from a data point. *)
Definition READ_METRICS : list string :=
  [ "waveHeight"; "wavePeriod"; "waveDirection"; "windSpeed";
    "windDirection"; "airTemperature" ].

(** A decoded payload whose first data point gives an explicit null as the
    ["noaa"] value of a metric the fetcher reads. *)
Definition payload_has_null (data : value) : Prop :=
  exists rows first metric by_source,
    metric ∈ READ_METRICS /\
    subscript_key data "data" = Ok rows /\
    truthy rows = true /\
    subscript_zero rows = Ok first /\
    value_get first metric (VDict ∅) = Ok (VDict by_source) /\
    by_source !! "noaa" = Some VNone.

(** The request made for [loc] from world [w] is answered with status 200
    and such a payload. *)
Definition answered_with_null (loc : Location) (w : world) : Prop :=
  exists rsp data,
    marine_answer loc w = Ok rsp /\
    status_code rsp = 200%Z /\
    json rsp = Ok data /\
    payload_has_null data.

(** The world after one more line on standard output. *)
Definition logged (line : string) (w : world) : world := snd (print line w).

(** The test of the inner loop: the left neighbour scores strictly less. *)
Definition scores_less (a b : spot) : bool :=
  Qlt_bool (quality_score a) (quality_score b).

(** One inner loop as a function on the list: [m] neighbour comparisons from
    the front, the smaller element being carried to the right. *)
Fixpoint bubble_pass (m : nat) (l : list spot) : list spot :=
  match m, l with
  | S m', a :: b :: t =>
      if scores_less a b then b :: bubble_pass m' (a :: t)
      else a :: bubble_pass m' (b :: t)
  | _, _ => l
  end.

(** The outer loop as a function on the list: passes of [k - 1], [k - 2],
    ..., [0] comparisons. *)
Fixpoint bubble_rounds (k : nat) (l : list spot) : list spot :=
  match k with
  | O => l
  | S k' => bubble_rounds k' (bubble_pass k' l)
  end.

(** Descending by quality score: every entry scores at least as much as every
    later one. *)
Definition descending (l : list spot) : Prop :=
  StronglySorted (fun a b => (quality_score b <= quality_score a)%Q) l.

(** The entries of [l] whose score equals [q], in the order of [l]. *)
Definition with_score (q : Q) (l : list spot) : list spot :=
  List.filter (fun e => Qeq_bool (quality_score e) q) l.

(** The stored score of an entry is the score of the record it carries. *)
Definition scored_by_record (e : spot) : Prop :=
  calculate_wave_quality (spot_surf_data e) = Ok (quality_score e).

(** A value that an ordering comparison against a float accepts. *)
Definition numeric (v : value) : Prop := is_Some (as_number v).

(** The eleven fields the reporter interpolates into its prompt. *)
Definition PROMPT_FIELDS : list string :=
  [ "location_name"; "wave_height"; "wave_period"; "wave_direction";
    "wind_speed"; "wind_direction"; "temperature"; "swell_height";
    "swell_period"; "swell_direction"; "tide_height" ].

(** The marine service never answers with status 200: it raises, or answers
    with another status. *)
Definition provider_unavailable (o : oracle) : Prop :=
  forall n rq rsp, marine_service o n rq = Ok rsp -> status_code rsp <> 200%Z.

(** The location whose name a fetch for [location_id] reports: its own when
    registered, the default one otherwise. *)
Definition reported_location (location_id : string) (loc : Location) : Prop :=
  registry_get SURF_LOCATIONS location_id = Some loc \/
  (registry_get SURF_LOCATIONS location_id = None /\
   registry_get SURF_LOCATIONS "malibu" = Some loc).

(** An entry repeats the name and the wave height of the record it carries. *)
Definition copies_record (e : spot) : Prop :=
  spot_surf_data e !! "location_name" = Some (spot_location_name e) /\
  spot_surf_data e !! "wave_height" = Some (spot_wave_height e).

(** The swell height and period of a record repeat its wave height and
    period. *)
Definition swell_mirrors_wave (d : dict) : Prop :=
  exists height period,
    d !! "wave_height" = Some height /\ d !! "swell_height" = Some height /\
    d !! "wave_period" = Some period /\ d !! "swell_period" = Some period.

(** What a record tells about the location it was fetched for. *)
Definition record_for (loc : Location) (d : dict) : Prop :=
  d !! "location_name" = Some (VStr (name loc)) /\ swell_mirrors_wave d.

(** ** Sample data *)

(** The record of the spec's first scoring scenario. *)
Definition scenario_100 : dict :=
  <["wave_height" := VInt 5]>
  (<["wave_period" := VInt 12]>
  (<["wind_speed" := VInt 8]>
  (<["swell_height" := VInt 4]>
  (<["swell_period" := VInt 11]> ∅)))).

Definition sample_dawn : ConditionsRecord :=
  {| cr_location_name := "Malibu";
     cr_wave_height := Fin (45 # 10);
     cr_wave_period := Fin 9;
     cr_wave_direction := "SW";
     cr_wind_speed := Fin 12;
     cr_wind_direction := "N";
     cr_temperature := Fin 18;
     cr_swell_height := Fin (45 # 10);
     cr_swell_period := Fin 9;
     cr_swell_direction := "W";
     cr_tide_height := Fin (- (3 # 10));
     cr_timestamp := "2024-05-01T06:00:00" |}.

(** Same scored fields as [sample_dawn], everything else different. *)
Definition sample_dusk : ConditionsRecord :=
  {| cr_location_name := "Pipeline";
     cr_wave_height := Fin (45 # 10);
     cr_wave_period := Fin 9;
     cr_wave_direction := "NE";
     cr_wind_speed := Fin 12;
     cr_wind_direction := "S";
     cr_temperature := Fin 29;
     cr_swell_height := Fin (45 # 10);
     cr_swell_period := Fin 9;
     cr_swell_direction := "E";
     cr_tide_height := Fin (21 # 10);
     cr_timestamp := "2024-05-01T19:30:00" |}.

(** A world in which both remote services are down. *)
Definition offline : oracle :=
  {| SURF_API_KEY := "your-surf-api-key-here";
     OPENAI_API_KEY := "your-openai-api-key-here";
     draw_uniform_round := fun n a b _ => a;
     draw_index := fun n len => n;
     clock := fun n => {| strftime_ymd := "2024-05-01";
                          isoformat := "2024-05-01T06:00:00" |};
     marine_service := fun _ _ => Raise (ServiceError "connection refused");
     text_service := fun _ _ => Raise (ServiceError "quota exceeded") |}.

Definition offline_world : world :=
  {| env := offline; tick := 0; stdout := [] |}.

(** A payload whose only data point reports the wave height as null. *)
Definition null_payload : value :=
  VDict {[ "data" :=
             VList [ VDict {[ "waveHeight" := VDict {[ "noaa" := VNone ]} ]} ] ]}.

(** A world in which the marine service answers 200 with [null_payload]. *)
Definition null_world : world :=
  {| env :=
       {| SURF_API_KEY := "key";
          OPENAI_API_KEY := "key";
          draw_uniform_round := fun n a b _ => a;
          draw_index := fun n len => n;
          clock := fun n => {| strftime_ymd := "2024-05-01";
                               isoformat := "2024-05-01T06:00:00" |};
          marine_service :=
            fun _ _ => Ok {| status_code := 200; json := Ok null_payload |};
          text_service := fun _ _ => Raise (ServiceError "quota exceeded") |};
     tick := 0;
     stdout := [] |}.

(** The record of the spec's second scoring scenario. *)
Definition scenario_30 : dict :=
  <["wave_height" := VInt 1]>
  (<["wave_period" := VInt 20]>
  (<["wind_speed" := VInt 30]>
  (<["swell_height" := VInt 1]>
  (<["swell_period" := VInt 5]> ∅)))).

(** An oracle with the given two services and fixed draws and clock. *)
Definition oracle_with
    (marine : nat -> request -> result response)
    (text : nat -> chat_request -> result (list value)) : oracle :=
  {| SURF_API_KEY := "key";
     OPENAI_API_KEY := "key";
     draw_uniform_round := fun n a b _ => a;
     draw_index := fun n len => n;
     clock := fun n => {| strftime_ymd := "2024-05-01";
                          isoformat := "2024-05-01T06:00:00" |};
     marine_service := marine;
     text_service := text |}.

Definition world_of (o : oracle) : world :=
  {| env := o; tick := 0; stdout := [] |}.

(** The marine service answers 200 with an empty [data] list; the text
    service answers with one choice. *)
Definition calm_world : world :=
  world_of (oracle_with
    (fun _ _ => Ok {| status_code := 200;
                      json := Ok (VDict {[ "data" := VList [] ]}) |})
    (fun _ _ => Ok [VStr "Clean lines all morning."])).

(** The marine service answers 503. *)
Definition gateway_down_world : world :=
  world_of (oracle_with
    (fun _ _ => Ok {| status_code := 503; json := Raise (ValueError "no body") |})
    (fun _ _ => Ok [])).

(** The marine service answers 200 with a body that is not JSON. *)
Definition garbled_world : world :=
  world_of (oracle_with
    (fun _ _ => Ok {| status_code := 200;
                      json := Raise (ValueError "Expecting value: line 1 column 1 (char 0)") |})
    (fun _ _ => Ok [])).

Definition sample_spot (id : string) (q : Q) : spot :=
  {| spot_location_id := id;
     spot_location_name := VStr id;
     spot_wave_height := VLit 4;
     quality_score := q;
     spot_surf_data := ∅ |}.

(** * Properties of the quality scorer *)

Section Scorer.

Local Open Scope Q_scope.

Lemma to_dict_scored_fields (r : ConditionsRecord) :
  to_dict r !! "wave_height"%string = Some (VFloat (cr_wave_height r)) /\
  to_dict r !! "wave_period"%string = Some (VFloat (cr_wave_period r)) /\
  to_dict r !! "wind_speed"%string = Some (VFloat (cr_wind_speed r)) /\
  to_dict r !! "swell_height"%string = Some (VFloat (cr_swell_height r)) /\
  to_dict r !! "swell_period"%string = Some (VFloat (cr_swell_period r)).
Proof. repeat split; reflexivity. Qed.

(** Whenever the four factors can be evaluated, the running score is a sum of
    one entry per factor of the rule table. *)
Lemma raw_score_decomposes (d : dict) (raw : Q) :
  raw_score d = Ok raw ->
  exists h p w s,
    raw = 0 + h + p + w + s /\
    height_points h /\ period_points p /\ wind_points w /\ swell_points s.
Proof.
  unfold raw_score, height_points, period_points, wind_points, swell_points.
  destruct (getitem d "wave_height") as [wh|]; [cbn [bind_r] | discriminate].
  destruct (chained_le 3 wh 8) as [[|]|]; cbn [bind_r]; [ | | discriminate].
  2: destruct (chained_le 2 wh 10) as [[|]|]; cbn [bind_r]; [ | | discriminate].
  all: destruct (getitem d "wave_period") as [wp|]; [cbn [bind_r] | discriminate].
  all: destruct (chained_le 10 wp 16) as [[|]|]; cbn [bind_r]; [ | | discriminate].
  all: try (destruct (chained_le 8 wp 18) as [[|]|]; cbn [bind_r];
            [ | | discriminate]).
  all: destruct (getitem d "wind_speed") as [ws|]; [cbn [bind_r] | discriminate].
  all: destruct (value_le_float ws 10) as [[|]|]; cbn [bind_r]; [ | | discriminate].
  all: try (destruct (value_le_float ws 15) as [[|]|]; cbn [bind_r];
            [ | | discriminate]).
  all: destruct (getitem d "swell_height") as [sh|]; [cbn [bind_r] | discriminate].
  all: destruct (getitem d "swell_period") as [sp|]; [cbn [bind_r] | discriminate].
  all: destruct (and_then (value_ge_float sh 3) (value_ge_float sp 10))
         as [[|]|]; cbn [bind_r]; [ | | discriminate].
  all: intros [= <-]; do 4 eexists; split; [reflexivity | ]; tauto.
Qed.

Lemma raw_score_range (d : dict) (raw : Q) :
  raw_score d = Ok raw -> 30 <= raw /\ raw <= 100.
Proof.
  intros H. destruct (raw_score_decomposes d raw H)
    as (h & p & w & s & -> & Hh & Hp & Hw & Hs).
  unfold height_points, period_points, wind_points, swell_points in *.
  destruct Hh as [-> | [-> | ->]], Hp as [-> | [-> | ->]],
           Hw as [-> | [-> | ->]], Hs as [-> | ->];
    split; discriminate.
Qed.

Lemma py_min_below (a b : Q) : a <= b -> py_min a b = a.
Proof.
  intros H. unfold py_min, Qlt_bool.
  apply Qle_bool_iff in H. rewrite H. reflexivity.
Qed.

Lemma chained_le_float (lo hi : Q) (x : pyfloat) :
  chained_le lo (VFloat x) hi = Ok (float_le (Fin lo) x && float_le x (Fin hi)).
Proof.
  unfold chained_le, float_le_value, value_le_float. cbn [as_number bind_r].
  destruct (float_le (Fin lo) x); reflexivity.
Qed.

Lemma swell_test_float (h p : pyfloat) :
  and_then (value_ge_float (VFloat h) 3) (value_ge_float (VFloat p) 10) =
    Ok (float_le (Fin 3) h && float_le (Fin 10) p).
Proof.
  unfold and_then, value_ge_float. cbn [as_number bind_r].
  destruct (float_le (Fin 3) h); reflexivity.
Qed.

(** On a dictionary whose scored fields all hold floats the running score is
    the sum of the four closed forms. *)
Lemma raw_score_on_floats (d : dict) (wh wp ws sh sp : pyfloat) :
  d !! "wave_height"%string = Some (VFloat wh) ->
  d !! "wave_period"%string = Some (VFloat wp) ->
  d !! "wind_speed"%string = Some (VFloat ws) ->
  d !! "swell_height"%string = Some (VFloat sh) ->
  d !! "swell_period"%string = Some (VFloat sp) ->
  raw_score d =
    Ok (0 + height_rule wh + period_rule wp + wind_rule ws + swell_rule sh sp).
Proof.
  intros H1 H2 H3 H4 H5. unfold raw_score, getitem.
  rewrite H1, H2, H3, H4, H5. cbn [bind_r].
  rewrite !chained_le_float, swell_test_float.
  unfold value_le_float, height_rule, period_rule, wind_rule, swell_rule.
  cbn [as_number bind_r].
  destruct (float_le (Fin 3) wh && float_le wh (Fin 8)),
    (float_le (Fin 2) wh && float_le wh (Fin 10)); cbn [bind_r];
  destruct (float_le (Fin 10) wp && float_le wp (Fin 16)),
    (float_le (Fin 8) wp && float_le wp (Fin 18)); cbn [bind_r];
  destruct (float_le ws (Fin 10)), (float_le ws (Fin 15)); cbn [bind_r];
  destruct (float_le (Fin 3) sh && float_le (Fin 10) sp); reflexivity.
Qed.

Lemma score_on_record (r : ConditionsRecord) :
  calculate_wave_quality (to_dict r) =
    Ok (0 + height_rule (cr_wave_height r) + period_rule (cr_wave_period r)
          + wind_rule (cr_wind_speed r)
          + swell_rule (cr_swell_height r) (cr_swell_period r)).
Proof.
  destruct (to_dict_scored_fields r) as (H1 & H2 & H3 & H4 & H5).
  pose proof (raw_score_on_floats _ _ _ _ _ _ H1 H2 H3 H4 H5) as Hraw.
  unfold calculate_wave_quality. rewrite Hraw. cbn [bind_r].
  rewrite py_min_below; [reflexivity | ].
  apply (raw_score_range _ _ Hraw).
Qed.

(** C1. The scorer is total and bounded: on every conditions record, whatever
    floats (negative, huge, infinite or NaN) its numeric fields hold, it
    returns a score, and that score lies between 0 and 100. *)
Theorem score_total_and_bounded (r : ConditionsRecord) :
  exists s, calculate_wave_quality (to_dict r) = Ok s /\ 0 <= s /\ s <= 100.
Proof.
  destruct (to_dict_scored_fields r) as (H1 & H2 & H3 & H4 & H5).
  pose proof (raw_score_on_floats _ _ _ _ _ _ H1 H2 H3 H4 H5) as Hraw.
  destruct (raw_score_range _ _ Hraw) as [Hlo Hhi].
  eexists. split; [apply score_on_record | ]. split; [ | exact Hhi].
  eapply Qle_trans; [ | exact Hlo]. discriminate.
Qed.

(** C7. Wind-speed goodness: of two conditions records that differ in wind
    speed only, the one with wind speed 5 scores at least as much as the one
    with wind speed 20. *)
Theorem score_wind_5_vs_20 (r : ConditionsRecord) :
  exists s5 s20,
    calculate_wave_quality (to_dict (with_wind_speed (Fin 5) r)) = Ok s5 /\
    calculate_wave_quality (to_dict (with_wind_speed (Fin 20) r)) = Ok s20 /\
    s20 <= s5.
Proof.
  do 2 eexists. split; [apply score_on_record | ].
  split; [apply score_on_record | ].
  cbn [with_wind_speed cr_wave_height cr_wave_period cr_wind_speed
       cr_swell_height cr_swell_period].
  change (wind_rule (Fin 20)) with 5. change (wind_rule (Fin 5)) with 25.
  apply Qplus_le_compat; [ | apply Qle_refl].
  apply Qplus_le_compat; [apply Qle_refl | discriminate].
Qed.

(** C8. The cap is the identity: whenever the four factors of a record can
    be evaluated, their sum is at most 100, so taking the minimum with 100
    returns that very sum and the scorer returns it unchanged. *)
Theorem cap_is_identity (d : dict) (raw : Q) :
  raw_score d = Ok raw ->
  raw <= 100 /\ py_min raw 100 = raw /\ calculate_wave_quality d = Ok raw.
Proof.
  intros Hraw. destruct (raw_score_range _ _ Hraw) as [_ Hhi].
  split; [exact Hhi | ]. split; [apply py_min_below, Hhi | ].
  unfold calculate_wave_quality. rewrite Hraw. cbn [bind_r].
  f_equal. apply py_min_below, Hhi.
Qed.

(** C9. The spec's scenario: wave height 5, wave period 12, wind speed 8,
    swell height 4 and swell period 11 score exactly 100, as 30 + 25 + 25 + 20. *)
Theorem scenario_scores_100 :
  calculate_wave_quality scenario_100 = Ok (30 + 25 + 25 + 20) /\
  calculate_wave_quality scenario_100 = Ok 100.
Proof. split; vm_compute; reflexivity. Qed.

(** C10. The score is a function of the five scored fields alone: two
    dictionaries that agree on wave height, wave period, wind speed, swell
    height and swell period get the same outcome from the scorer, whatever
    their directions, temperature, tide, location name or timestamp. *)
Theorem score_depends_on_scored_fields_only (d1 d2 : dict) :
  agree_on_scored d1 d2 ->
  calculate_wave_quality d1 = calculate_wave_quality d2.
Proof.
  unfold agree_on_scored, SCORED_FIELDS. intros H.
  repeat match goal with
         | H : Forall _ (_ :: _) |- _ =>
             let E := fresh "E" in
             apply Forall_cons in H; destruct H as [E H]
         end.
  unfold calculate_wave_quality, raw_score, getitem.
  rewrite E, E0, E1, E2, E3. reflexivity.
Qed.

Lemma score_depends_on_scored_fields_only_witness :
  agree_on_scored (to_dict sample_dawn) (to_dict sample_dusk) /\
  to_dict sample_dawn <> to_dict sample_dusk /\
  calculate_wave_quality (to_dict sample_dawn) =
    calculate_wave_quality (to_dict sample_dusk).
Proof.
  assert (H : agree_on_scored (to_dict sample_dawn) (to_dict sample_dusk))
    by (repeat constructor).
  split; [exact H | ]. split.
  - intros E. apply (f_equal (fun d => d !! "temperature"%string)) in E.
    vm_compute in E. discriminate E.
  - apply (score_depends_on_scored_fields_only _ _ H).
Defined.

Lemma cap_is_identity_witness :
  raw_score scenario_100 = Ok 100 /\
  (100 <= 100 /\ py_min 100 100 = 100 /\
   calculate_wave_quality scenario_100 = Ok 100).
Proof.
  split; [reflexivity | ].
  apply (cap_is_identity scenario_100 100). reflexivity.
Defined.

End Scorer.

(** * Properties of the synthetic generator *)

Section Generator.

Lemma random_choice_runs (seq : list string) (w : world) :
  seq <> [] -> exists s, random_choice seq w = (Ok s, advance w).
Proof.
  intros Hne. unfold random_choice.
  destruct (seq !! _) as [s|] eqn:E; [eauto | ].
  apply lookup_ge_None in E. exfalso.
  assert (length seq <> 0)%nat by (destruct seq; [congruence | discriminate]).
  pose proof (Nat.mod_upper_bound
                (draw_index (env w) (tick w) (length seq)) (length seq)).
  lia.
Qed.

(** The generator never raises, and its result is the twelve-key literal
    filled from nine draws, with the wave height and the wave period each used
    twice. *)
Lemma generate_mock_runs (location : Location) (w : world) :
  exists wave_height wave_period wave_direction wind_speed wind_direction
         temperature swell_direction tide_height timestamp w',
    generate_mock_surf_data location w =
      (Ok (conditions_dict
             (VStr (name location)) (VLit wave_height) (VLit wave_period)
             (VStr wave_direction) (VLit wind_speed) (VStr wind_direction)
             (VLit temperature) (VLit wave_height) (VLit wave_period)
             (VStr swell_direction) (VLit tide_height) (VStr timestamp)), w').
Proof.
  unfold generate_mock_surf_data, bind, ret, random_uniform_round, datetime_now.
  repeat match goal with
         | |- context [random_choice ?l ?w0] =>
             let s := fresh "s" in
             destruct (random_choice_runs l w0 ltac:(discriminate)) as [s ->]
         end.
  do 10 eexists. reflexivity.
Qed.

(** C5. Whatever the draws, the record produced by the synthetic generator
    carries the wave height again as its swell height and the wave period
    again as its swell period. *)
Theorem mock_swell_mirrors_wave (location : Location) (w : world) :
  exists d w' height period,
    generate_mock_surf_data location w = (Ok d, w') /\
    d !! "wave_height" = Some height /\ d !! "swell_height" = Some height /\
    d !! "wave_period" = Some period /\ d !! "swell_period" = Some period.
Proof.
  destruct (generate_mock_runs location w)
    as (wh & wp & wd & ws & wdir & t & sd & th & ts & w' & E).
  exists (conditions_dict
            (VStr (name location)) (VLit wh) (VLit wp) (VStr wd) (VLit ws)
            (VStr wdir) (VLit t) (VLit wh) (VLit wp) (VStr sd) (VLit th)
            (VStr ts)), w', (VLit wh), (VLit wp).
  split; [exact E | ]. repeat split; reflexivity.
Qed.

End Generator.

(** * Properties of the conditions fetcher *)

Section Fetcher.

Lemma fallback_on_unknown (location_id : string) (e : exn) (w : world) :
  registry_get SURF_LOCATIONS location_id = None ->
  exists malibu,
    registry_get SURF_LOCATIONS "malibu" = Some malibu /\
    name malibu = "Malibu" /\
    fetch_fallback location_id e w =
      generate_mock_surf_data malibu (logged ("API Error: " ++ str_exn e) w).
Proof.
  intros Hnone. eexists. split; [reflexivity | ]. split; [reflexivity | ].
  unfold fetch_fallback, bind, lift, logged. cbn [print snd].
  rewrite Hnone. reflexivity.
Qed.

Lemma conditions_dict_present (v1 v2 v3 v4 v5 v6 v7 v8 v9 v10 v11 v12 : value) :
  all_fields_present (conditions_dict v1 v2 v3 v4 v5 v6 v7 v8 v9 v10 v11 v12).
Proof. repeat constructor; eexists; reflexivity. Qed.

Lemma conditions_dict_populated (v1 v2 v3 v4 v5 v6 v7 v8 v9 v10 v11 v12 : value) :
  Forall (fun v => v <> VNone) [v1; v2; v3; v4; v5; v6; v7; v8; v9; v10; v11; v12] ->
  populated (conditions_dict v1 v2 v3 v4 v5 v6 v7 v8 v9 v10 v11 v12).
Proof.
  intros H.
  repeat match goal with
         | H : Forall _ (_ :: _) |- _ =>
             let E := fresh "N" in
             apply Forall_cons in H; destruct H as [E H]
         end.
  unfold populated, FIELDS.
  repeat constructor; eexists; (split; [reflexivity | assumption]).
Qed.

(** The synthetic path: never an exception, always a populated record. *)
Lemma mock_populated (location : Location) (w : world) :
  exists d w', generate_mock_surf_data location w = (Ok d, w') /\ populated d.
Proof.
  destruct (generate_mock_runs location w)
    as (wh & wp & wd & ws & wdir & t & sd & th & ts & w' & E).
  do 2 eexists. split; [exact E | ].
  apply conditions_dict_populated. repeat constructor; discriminate.
Qed.

Lemma populated_present (d : dict) : populated d -> all_fields_present d.
Proof.
  unfold populated, all_fields_present. intros H.
  eapply Forall_impl; [exact H | ].
  intros k (v & -> & _). eauto.
Qed.

Lemma fallback_populated (location_id : string) (e : exn) (w : world) :
  exists d w', fetch_fallback location_id e w = (Ok d, w') /\ populated d.
Proof.
  unfold fetch_fallback, bind, lift. cbn [print].
  change (registry_getitem SURF_LOCATIONS "malibu") with
    (Ok {| name := "Malibu"; lat := 340370 # 10000;
           lon := - (1186770 # 10000);
           description := "Famous point break in Southern California" |}).
  cbn [bind_r]. apply mock_populated.
Qed.

Lemma value_none_or_not (v : value) : v = VNone \/ v <> VNone.
Proof. destruct v; [left; reflexivity | right; discriminate ..]. Qed.

(** A null can only come out of [noaa] when the data point holds it. *)
Lemma noaa_null (current : value) (metric : string) (dflt : value) :
  dflt <> VNone ->
  noaa current metric dflt = Ok VNone ->
  exists by_source,
    value_get current metric (VDict ∅) = Ok (VDict by_source) /\
    by_source !! "noaa" = Some VNone.
Proof.
  intros Hd. unfold noaa.
  destruct (value_get current metric (VDict ∅)) as [src|] eqn:E;
    cbn [bind_r]; [ | discriminate].
  destruct src; cbn [value_get]; try discriminate.
  intros [= H]. exists d. split; [reflexivity | ].
  destruct (d !! "noaa") as [v|]; simpl in H; congruence.
Qed.

(** The first data point is either the empty dictionary standing in for an
    empty [data], or the first element of a non-empty one. *)
Lemma current_cases (data current : value) :
  (let? rows := subscript_key data "data" in
   if truthy rows
   then let? rows := subscript_key data "data" in subscript_zero rows
   else Ok (VDict ∅)) = Ok current ->
  current = VDict ∅ \/
  exists rows, subscript_key data "data" = Ok rows /\ truthy rows = true /\
               subscript_zero rows = Ok current.
Proof.
  destruct (subscript_key data "data") as [rows|]; cbn [bind_r];
    [ | discriminate].
  destruct (truthy rows) eqn:T.
  - intros H. right. exists rows. auto.
  - intros [= <-]. left. reflexivity.
Qed.

Lemma noaa_on_empty (metric : string) (dflt : value) :
  noaa (VDict ∅) metric dflt = Ok dflt.
Proof. unfold noaa. cbn. rewrite !lookup_empty. reflexivity. Qed.

(** C3. An identifier that is not in the registry does not make the fetcher
    fail: the [ValueError] raised for it is caught inside, one line is
    logged, and the call returns the synthetic record generated for Malibu. *)
Theorem unknown_location_falls_back (location_id : string) (w : world) :
  registry_get SURF_LOCATIONS location_id = None ->
  exists malibu d w',
    registry_get SURF_LOCATIONS "malibu" = Some malibu /\
    get_surf_data_from_api location_id w = (Ok d, w') /\
    generate_mock_surf_data malibu
      (logged ("API Error: Location " ++ location_id ++ " not found") w)
      = (Ok d, w') /\
    d !! "location_name" = Some (VStr "Malibu").
Proof.
  intros Hnone.
  destruct (fallback_on_unknown location_id
              (ValueError ("Location " ++ location_id ++ " not found")) w Hnone)
    as (malibu & Hm & Hname & Hfb).
  destruct (generate_mock_runs malibu
              (logged ("API Error: Location " ++ location_id ++ " not found") w))
    as (wh & wp & wd & ws & wdir & t & sd & th & ts & w' & E).
  exists malibu. eexists. exists w'.
  split; [exact Hm | ].
  assert (Hrun : get_surf_data_from_api location_id w =
                 generate_mock_surf_data malibu
                   (logged ("API Error: Location " ++ location_id ++ " not found") w)).
  { unfold get_surf_data_from_api, try_except, fetch_from_provider.
    rewrite Hnone. unfold lift. exact Hfb. }
  rewrite Hrun. split; [exact E | ]. split; [exact E | ].
  rewrite Hname. reflexivity.
Qed.

Lemma unknown_location_falls_back_witness :
  registry_get SURF_LOCATIONS "mavericks" = None /\
  exists malibu d w',
    registry_get SURF_LOCATIONS "malibu" = Some malibu /\
    get_surf_data_from_api "mavericks" offline_world = (Ok d, w') /\
    generate_mock_surf_data malibu
      (logged ("API Error: Location " ++ "mavericks" ++ " not found") offline_world)
      = (Ok d, w') /\
    d !! "location_name" = Some (VStr "Malibu").
Proof.
  split; [reflexivity | ].
  apply (unknown_location_falls_back "mavericks" offline_world). reflexivity.
Defined.

Lemma null_from_payload (loc : Location) (w : world) (rsp : response)
    (data current : value) :
  marine_answer loc w = Ok rsp ->
  status_code rsp = 200%Z ->
  json rsp = Ok data ->
  (current = VDict ∅ \/
   exists rows, subscript_key data "data" = Ok rows /\ truthy rows = true /\
                subscript_zero rows = Ok current) ->
  forall (metric : string) (dflt : value),
    metric ∈ READ_METRICS ->
    dflt <> VNone ->
    noaa current metric dflt = Ok VNone ->
    answered_with_null loc w.
Proof.
  intros Hms Hst Hj [-> | (rows & Hr & Ht & Hz)] metric dflt Hin Hd Hn.
  - rewrite noaa_on_empty in Hn. congruence.
  - destruct (noaa_null _ _ _ Hd Hn) as (src & Hg & Hs).
    exists rsp, data. repeat split; try assumption.
    exists rows, current, metric, src. auto 7.
Qed.

(** The default stands in when the data point lacks the metric, and when the
    metric lacks the ["noaa"] source. *)
Lemma noaa_defaults_when_absent (point : dict) (metric : string) (dflt : value) :
  (point !! metric = None ->
   noaa (VDict point) metric dflt = Ok dflt) /\
  (forall by_source,
     point !! metric = Some (VDict by_source) ->
     by_source !! "noaa" = None ->
     noaa (VDict point) metric dflt = Ok dflt).
Proof.
  unfold noaa, value_get. split.
  - intros ->. cbn. rewrite lookup_empty. reflexivity.
  - intros src -> Hs. cbn. rewrite Hs. reflexivity.
Qed.

Ltac read_metric :=
  unfold READ_METRICS;
  repeat (first [apply list_elem_of_here | apply list_elem_of_further]).

(** The provider path: when the [try] block returns, the record has all its
    fields, and a null among them was a null in the answer to the request
    made, under a metric that is read. *)
Lemma provider_path_cases (location_id : string) (w : world) (d : dict) (w' : world) :
  fetch_from_provider location_id w = (Ok d, w') ->
  all_fields_present d /\
  (populated d \/
   exists loc, registry_get SURF_LOCATIONS location_id = Some loc /\
               answered_with_null loc w).
Proof.
  unfold fetch_from_provider.
  destruct (registry_get SURF_LOCATIONS location_id) as [loc|];
    [ | unfold lift; discriminate].
  unfold bind, datetime_now, surf_api_key, requests_get, lift, ret.
  cbv beta iota.
  destruct (marine_service _ _ _) as [rsp|e] eqn:Hms; [ | discriminate].
  destruct (Z.eqb_spec (status_code rsp) 200) as [Hst|Hst].
  2:{ destruct (mock_populated loc (advance (advance (advance w))))
        as (d0 & w0 & E & P).
      rewrite E. intros [= <- <-].
      split; [apply populated_present | left]; exact P. }
  destruct (json rsp) as [data|] eqn:Hj; [ | discriminate].
  match goal with
  | |- context [bind_r (subscript_key data "data") ?k] =>
      destruct (bind_r (subscript_key data "data") k) as [current|] eqn:Hc;
        [ | discriminate]
  end.
  apply current_cases in Hc.
  destruct (noaa current "waveHeight" (VLit 3)) as [v1|] eqn:E1; [ | discriminate].
  destruct (noaa current "wavePeriod" (VLit 10)) as [v2|] eqn:E2; [ | discriminate].
  destruct (noaa current "waveDirection" (VStr "SW")) as [v3|] eqn:E3; [ | discriminate].
  destruct (noaa current "windSpeed" (VLit 10)) as [v4|] eqn:E4; [ | discriminate].
  destruct (noaa current "windDirection" (VStr "NW")) as [v5|] eqn:E5; [ | discriminate].
  destruct (noaa current "airTemperature" (VLit 20)) as [v6|] eqn:E6; [ | discriminate].
  intros [= <- <-]. split; [apply conditions_dict_present | ].
  pose proof (null_from_payload loc w rsp data current Hms Hst Hj Hc) as Hnull.
  destruct (value_none_or_not v1) as [-> | N1];
    [right; exists loc; split; [reflexivity | ];
     refine (Hnull _ _ _ _ E1); [read_metric | discriminate] | ].
  destruct (value_none_or_not v2) as [-> | N2];
    [right; exists loc; split; [reflexivity | ];
     refine (Hnull _ _ _ _ E2); [read_metric | discriminate] | ].
  destruct (value_none_or_not v3) as [-> | N3];
    [right; exists loc; split; [reflexivity | ];
     refine (Hnull _ _ _ _ E3); [read_metric | discriminate] | ].
  destruct (value_none_or_not v4) as [-> | N4];
    [right; exists loc; split; [reflexivity | ];
     refine (Hnull _ _ _ _ E4); [read_metric | discriminate] | ].
  destruct (value_none_or_not v5) as [-> | N5];
    [right; exists loc; split; [reflexivity | ];
     refine (Hnull _ _ _ _ E5); [read_metric | discriminate] | ].
  destruct (value_none_or_not v6) as [-> | N6];
    [right; exists loc; split; [reflexivity | ];
     refine (Hnull _ _ _ _ E6); [read_metric | discriminate] | ].
  left. apply conditions_dict_populated.
  repeat constructor; (assumption || discriminate).
Qed.

(** What the fetcher does achieve.  It never raises, and the record it returns
    always has all twelve fields.  Every field is moreover non-null on either
    fallback, and on the provider path unless the answer to the very request
    made gave a null as the ["noaa"] value of a metric that is read. *)
Lemma fetched_record_null_only_from_answer (location_id : string) (w : world) :
  exists d w',
    get_surf_data_from_api location_id w = (Ok d, w') /\
    all_fields_present d /\
    (populated d \/
     exists loc, registry_get SURF_LOCATIONS location_id = Some loc /\
                 answered_with_null loc w).
Proof.
  unfold get_surf_data_from_api, try_except.
  destruct (fetch_from_provider location_id w) as [[d|e] w1] eqn:E.
  - exists d, w1. split; [reflexivity | ].
    exact (provider_path_cases _ _ _ _ E).
  - destruct (fallback_populated location_id e w1) as (d & w2 & Hf & P).
    exists d, w2. split; [exact Hf | ].
    split; [apply populated_present | left]; exact P.
Qed.

(** C4.  The code falls short of the claim.  The claim wants every fetched
    record fully populated (no null or missing field), with defaults standing
    in for what the provider does not give.  The [.get('noaa', default)] of
    the provider path supplies the default for an absent value only: for
    Malibu, against a provider that answers 200 with
    [{"data": [{"waveHeight": {"noaa": null}}]}], the fetcher returns a record
    whose wave height and swell height are null, every other field being
    defaulted; the record is not populated, and the scorer raises a
    [TypeError] on it. *)
Theorem fetched_record_with_null :
  exists d w',
    get_surf_data_from_api "malibu" null_world = (Ok d, w') /\
    d = conditions_dict (VStr "Malibu") VNone (VLit 10) (VStr "SW") (VLit 10)
          (VStr "NW") (VLit 20) VNone (VLit 10) (VStr "SW") (VLit (1 # 2))
          (VStr "2024-05-01T06:00:00") /\
    d !! "wave_height" = Some VNone /\
    d !! "swell_height" = Some VNone /\
    ~ populated d /\
    calculate_wave_quality d =
      Raise (TypeError
               "'<=' not supported between instances of 'float' and 'NoneType'").
Proof.
  exists (conditions_dict (VStr "Malibu") VNone (VLit 10) (VStr "SW") (VLit 10)
            (VStr "NW") (VLit 20) VNone (VLit 10) (VStr "SW") (VLit (1 # 2))
            (VStr "2024-05-01T06:00:00")),
         (advance (advance (advance (advance null_world)))).
  split; [reflexivity | ]. split; [reflexivity | ].
  split; [reflexivity | ]. split; [reflexivity | ].
  split; [ | reflexivity].
  unfold populated, FIELDS. intros H.
  apply Forall_cons in H. destruct H as [_ H].
  apply Forall_cons in H. destruct H as [(v & Hv & Hn) _].
  apply Hn. vm_compute in Hv. congruence.
Qed.

End Fetcher.

(** * Properties of the narrative reporter *)

Section Reporter.

Lemma analyze_try_shape (surf_data : dict) (w : world) (rep : dict) (w' : world) :
  analyze_try surf_data w = (Ok rep, w') ->
  exists content ts rq rest,
    rep = report_dict content surf_data ts /\
    text_service (env w) (tick w) rq = Ok (content :: rest).
Proof.
  unfold analyze_try, bind, lift, ret, openai_api_key,
    chat_completions_create, datetime_now.
  repeat match goal with
         | |- context [getitem surf_data ?k] =>
             destruct (getitem surf_data k); [ | discriminate]
         end.
  cbv beta iota.
  destruct (text_service _ _ _) as [choices|] eqn:Hts; [ | discriminate].
  destruct choices as [|c rest]; [discriminate | ].
  intros [= <- <-]. eauto 6.
Qed.

Lemma analyze_except_runs (surf_data : dict) (e : exn) (w : world) :
  analyze_except surf_data e w =
    (Ok (report_dict (VStr ("Error analyzing conditions: " ++ str_exn e))
           surf_data (isoformat (clock (env w) (tick w)))),
     advance (logged ("GPT API Error: " ++ str_exn e) w)).
Proof. reflexivity. Qed.

Lemma analyze_try_service_down (surf_data : dict) (w : world) (e : exn) :
  all_fields_present surf_data ->
  (forall rq, text_service (env w) (tick w) rq = Raise e) ->
  analyze_try surf_data w = (Raise e, advance w).
Proof.
  unfold all_fields_present, FIELDS. intros H Hdown.
  repeat match goal with
         | H : Forall _ (_ :: _) |- _ =>
             let v := fresh "v" in
             let E := fresh "E" in
             apply Forall_cons in H; destruct H as [[v E] H]
         end.
  unfold analyze_try, getitem.
  rewrite E, E0, E1, E2, E3, E4, E5, E6, E7, E8, E9.
  unfold bind, lift, ret, openai_api_key, chat_completions_create.
  cbv beta iota. rewrite Hdown. reflexivity.
Qed.

Lemma to_dict_present (r : ConditionsRecord) : all_fields_present (to_dict r).
Proof. unfold to_dict. apply conditions_dict_present. Qed.

(** C6. The reporter never raises: it always returns a report that pairs an
    analysis with the input record and a timestamp, and unless the text
    service answered with at least one choice that analysis is an error
    message.  In particular, when the record has its fields and the
    text-generation call fails, with whatever exception, the analysis is the
    error message made from that exception and nothing is propagated. *)
Theorem report_never_raises (surf_data : dict) (w : world) :
  (exists content ts w',
     analyze_surf_conditions_with_gpt surf_data w =
       (Ok (report_dict content surf_data ts), w') /\
     ((exists e, content = VStr ("Error analyzing conditions: " ++ str_exn e)) \/
      (exists rq rest,
         text_service (env w) (tick w) rq = Ok (content :: rest)))) /\
  (forall e,
     all_fields_present surf_data ->
     (forall rq, text_service (env w) (tick w) rq = Raise e) ->
     exists ts w',
       analyze_surf_conditions_with_gpt surf_data w =
         (Ok (report_dict (VStr ("Error analyzing conditions: " ++ str_exn e))
                surf_data ts), w')).
Proof.
  split.
  - unfold analyze_surf_conditions_with_gpt, try_except.
    destruct (analyze_try surf_data w) as [[rep|e] w1] eqn:E.
    + destruct (analyze_try_shape _ _ _ _ E) as (c & ts & rq & rest & -> & Hts).
      exists c, ts, w1. split; [reflexivity | ]. right. eauto.
    + rewrite analyze_except_runs. do 3 eexists.
      split; [reflexivity | ]. left. eauto.
  - intros e Hall Hdown.
    unfold analyze_surf_conditions_with_gpt, try_except.
    rewrite (analyze_try_service_down _ _ _ Hall Hdown).
    rewrite analyze_except_runs. eauto.
Qed.

Lemma report_never_raises_witness :
  all_fields_present (to_dict sample_dawn) /\
  (forall rq,
     text_service (env offline_world) (tick offline_world) rq =
       Raise (ServiceError "quota exceeded")) /\
  exists ts w',
    analyze_surf_conditions_with_gpt (to_dict sample_dawn) offline_world =
      (Ok (report_dict
             (VStr ("Error analyzing conditions: " ++
                    str_exn (ServiceError "quota exceeded")))
             (to_dict sample_dawn) ts), w').
Proof.
  split; [apply to_dict_present | ].
  split; [intros rq; reflexivity | ].
  apply (proj2 (report_never_raises (to_dict sample_dawn) offline_world)).
  - apply to_dict_present.
  - intros rq. reflexivity.
Defined.

End Reporter.

(** * Properties of the rankings builder *)

Section Sorting.

Local Open Scope list_scope.

Lemma scores_less_true (a b : spot) :
  scores_less a b = true -> (quality_score a < quality_score b)%Q.
Proof.
  unfold scores_less, Qlt_bool. intros H. apply negb_true_iff in H.
  apply Qnot_le_lt. intros Hle. apply Qle_bool_iff in Hle. congruence.
Qed.

Lemma scores_less_false (a b : spot) :
  scores_less a b = false -> (quality_score b <= quality_score a)%Q.
Proof.
  unfold scores_less, Qlt_bool. intros H. apply negb_false_iff in H.
  apply Qle_bool_iff. exact H.
Qed.

(** *** The loops compute [bubble_rounds] *)

Lemma compare_and_swap_at (pre : list spot) (a b : spot) (t : list spot) :
  compare_and_swap (length pre) (pre ++ a :: b :: t) =
    Ok (pre ++ (if scores_less a b then b :: a :: t else a :: b :: t)).
Proof.
  assert (Ha : (pre ++ a :: b :: t) !! length pre = Some a)
    by (apply list_lookup_middle; reflexivity).
  assert (Hb : (pre ++ a :: b :: t) !! (length pre + 1)%nat = Some b).
  { rewrite lookup_app_r by lia.
    replace (length pre + 1 - length pre)%nat with 1%nat by lia. reflexivity. }
  unfold compare_and_swap, list_index. rewrite Ha, Hb. cbn [bind_r].
  fold (scores_less a b). destruct (scores_less a b); [ | reflexivity].
  unfold list_assign.
  assert (H1 : (length pre <? length (pre ++ a :: b :: t))%nat = true).
  { apply Nat.ltb_lt. rewrite length_app. cbn [length]. lia. }
  rewrite H1. cbn [bind_r].
  rewrite insert_app_r_alt by lia. rewrite Nat.sub_diag. cbn [insert list_insert].
  assert (H2 : (length pre + 1 <? length (pre ++ b :: b :: t))%nat = true).
  { apply Nat.ltb_lt. rewrite length_app. cbn [length]. lia. }
  rewrite H2. rewrite insert_app_r_alt by lia.
  replace (length pre + 1 - length pre)%nat with 1%nat by lia. reflexivity.
Qed.

Lemma inner_loop_as_pass (m : nat) :
  forall (pre l : list spot),
    (m < length l)%nat ->
    for_each (seq (length pre) m) compare_and_swap (pre ++ l) =
      Ok (pre ++ bubble_pass m l).
Proof.
  induction m as [|m IH]; intros pre l Hm.
  - destruct l; reflexivity.
  - destruct l as [|a [|b t]]; cbn [length] in Hm; try lia.
    cbn [seq for_each]. rewrite compare_and_swap_at. cbn [bind_r bubble_pass].
    destruct (scores_less a b).
    + specialize (IH (pre ++ [b]) (a :: t)).
      rewrite length_app, <- !app_assoc in IH. cbn [length app] in IH.
      rewrite Nat.add_1_r in IH. apply IH. cbn [length]. lia.
    + specialize (IH (pre ++ [a]) (b :: t)).
      rewrite length_app, <- !app_assoc in IH. cbn [length app] in IH.
      rewrite Nat.add_1_r in IH. apply IH. cbn [length]. lia.
Qed.

Lemma bubble_pass_length (m : nat) :
  forall l, length (bubble_pass m l) = length l.
Proof.
  induction m as [|m IH]; intros l; [destruct l; reflexivity | ].
  destruct l as [|a [|b t]]; try reflexivity.
  cbn [bubble_pass]. destruct (scores_less a b); cbn [length]; rewrite IH;
    reflexivity.
Qed.

Lemma outer_loop_as_rounds (n k : nat) :
  forall (i : nat) (l : list spot),
    (i + k = n)%nat -> length l = n ->
    for_each (seq i k)
      (fun i s => for_each (seq 0 (n - i - 1)) compare_and_swap s) l =
      Ok (bubble_rounds k l).
Proof.
  induction k as [|k IH]; intros i l Hik Hl; [reflexivity | ].
  cbn [seq for_each bubble_rounds].
  replace (n - i - 1)%nat with k by lia.
  pose proof (inner_loop_as_pass k [] l) as Hin. cbn [length app] in Hin.
  rewrite Hin by lia. cbn [bind_r].
  apply IH; [lia | ]. rewrite bubble_pass_length. exact Hl.
Qed.

Lemma bubble_sort_as_rounds (l : list spot) :
  bubble_sort l = Ok (bubble_rounds (length l) l).
Proof. unfold bubble_sort. apply outer_loop_as_rounds; [lia | reflexivity]. Qed.

(** *** What one pass preserves and achieves *)

Lemma bubble_pass_perm (m : nat) :
  forall l, Permutation l (bubble_pass m l).
Proof.
  induction m as [|m IH]; intros l; [destruct l; reflexivity | ].
  destruct l as [|a [|b t]]; try reflexivity.
  cbn [bubble_pass]. destruct (scores_less a b).
  - etransitivity; [apply perm_swap | ]. apply perm_skip, IH.
  - apply perm_skip, IH.
Qed.

Lemma bubble_pass_with_score (q : Q) (m : nat) :
  forall l, with_score q (bubble_pass m l) = with_score q l.
Proof.
  induction m as [|m IH]; intros l; [destruct l; reflexivity | ].
  destruct l as [|a [|b t]]; try reflexivity.
  cbn [bubble_pass]. destruct (scores_less a b) eqn:Hless.
  - unfold with_score in *. cbn [List.filter]. rewrite IH. cbn [List.filter].
    destruct (Qeq_bool (quality_score a) q) eqn:Ea,
             (Qeq_bool (quality_score b) q) eqn:Eb; try reflexivity.
    exfalso. apply scores_less_true in Hless.
    apply Qeq_bool_iff in Ea, Eb. rewrite Ea, Eb in Hless.
    exact (Qlt_irrefl _ Hless).
  - unfold with_score in *. cbn [List.filter]. rewrite IH. reflexivity.
Qed.

Lemma bubble_pass_app (m : nat) :
  forall l1 l2,
    (m < length l1)%nat -> bubble_pass m (l1 ++ l2) = bubble_pass m l1 ++ l2.
Proof.
  induction m as [|m IH]; intros l1 l2 Hm.
  - destruct l1; [cbn [length] in Hm; lia | ]. cbn [app bubble_pass].
    destruct (l1 ++ l2); reflexivity.
  - destruct l1 as [|a [|b t]]; cbn [length] in Hm; try lia.
    cbn [app bubble_pass]. destruct (scores_less a b).
    + cbn [app]. f_equal. apply (IH (a :: t) l2). cbn [length]. lia.
    + cbn [app]. f_equal. apply (IH (b :: t) l2). cbn [length]. lia.
Qed.

(** A full pass puts a lowest-scoring element last. *)
Lemma bubble_pass_last (m : nat) :
  forall l,
    length l = S m ->
    exists front c,
      bubble_pass m l = front ++ [c] /\
      Forall (fun x => (quality_score c <= quality_score x)%Q) l.
Proof.
  induction m as [|m IH]; intros l Hl.
  - destruct l as [|a [|? ?]]; try discriminate.
    exists [], a. split; [reflexivity | ].
    constructor; [apply Qle_refl | constructor].
  - destruct l as [|a [|b t]]; try discriminate.
    cbn [bubble_pass]. destruct (scores_less a b) eqn:Hless.
    + destruct (IH (a :: t)) as (front & c & E & Hc);
        [cbn [length] in *; lia | ].
      exists (b :: front), c. rewrite E. split; [reflexivity | ].
      apply Forall_cons in Hc. destruct Hc as [Hca Hct].
      constructor; [exact Hca | ]. constructor; [ | exact Hct].
      apply scores_less_true in Hless.
      eapply Qle_trans; [exact Hca | apply Qlt_le_weak, Hless].
    + destruct (IH (b :: t)) as (front & c & E & Hc);
        [cbn [length] in *; lia | ].
      exists (a :: front), c. rewrite E. split; [reflexivity | ].
      apply Forall_cons in Hc. destruct Hc as [Hcb Hct].
      constructor; [ | constructor; [exact Hcb | exact Hct]].
      apply scores_less_false in Hless.
      eapply Qle_trans; [exact Hcb | exact Hless].
Qed.


(** *** The whole sort *)

Lemma bubble_rounds_perm (k : nat) :
  forall l, Permutation l (bubble_rounds k l).
Proof.
  induction k as [|k IH]; intros l; [reflexivity | ].
  cbn [bubble_rounds]. etransitivity; [apply (bubble_pass_perm k) | apply IH].
Qed.

Lemma bubble_rounds_with_score (q : Q) (k : nat) :
  forall l, with_score q (bubble_rounds k l) = with_score q l.
Proof.
  induction k as [|k IH]; intros l; [reflexivity | ].
  cbn [bubble_rounds]. rewrite IH. apply bubble_pass_with_score.
Qed.

(** The invariant of the outer loop: behind the first [k] entries the list is
    already descending, and nothing there outscores an entry in front. *)
Lemma bubble_rounds_descending (k : nat) :
  forall front back,
    length front = k ->
    descending back ->
    Forall (fun x =>
              Forall (fun y => (quality_score y <= quality_score x)%Q) back)
           front ->
    descending (bubble_rounds k (front ++ back)).
Proof.
  induction k as [|k IH]; intros front back Hlen Hback Hfb.
  - destruct front; [exact Hback | discriminate].
  - cbn [bubble_rounds]. rewrite bubble_pass_app by lia.
    destruct (bubble_pass_last k front Hlen) as (front' & c & E & Hc).
    pose proof (bubble_pass_perm k front) as Hperm.
    pose proof (bubble_pass_length k front) as Hl.
    rewrite E in Hperm, Hl |- *. rewrite length_app in Hl. cbn [length] in Hl.
    rewrite <- app_assoc. cbn [app].
    rewrite Forall_forall in Hfb, Hc.
    apply IH.
    + lia.
    + constructor; [exact Hback | ].
      apply Hfb. rewrite Hperm, elem_of_app, list_elem_of_singleton. auto.
    + apply Forall_forall. intros x Hx.
      assert (Hxf : x ∈ front) by (rewrite Hperm, elem_of_app; auto).
      constructor; [apply Hc, Hxf | apply Hfb, Hxf].
Qed.

Lemma bubble_sort_correct (l : list spot) :
  exists ranked,
    bubble_sort l = Ok ranked /\
    Permutation l ranked /\
    descending ranked /\
    (forall q, with_score q ranked = with_score q l).
Proof.
  exists (bubble_rounds (length l) l).
  split; [apply bubble_sort_as_rounds | ].
  split; [apply bubble_rounds_perm | ].
  split; [ | intros q; apply bubble_rounds_with_score].
  rewrite <- (app_nil_r l) at 2.
  apply bubble_rounds_descending; [reflexivity | constructor | ].
  apply Forall_forall. intros x _. constructor.
Qed.

(** *** The collecting loop *)

Lemma rank_one_entry (location_id : string) (w : world) (e : spot) (w' : world) :
  rank_one location_id w = (Ok e, w') ->
  spot_location_id e = location_id /\ scored_by_record e.
Proof.
  unfold rank_one, bind, lift, ret.
  destruct (get_surf_data_from_api location_id w) as [[d|] w1];
    [ | discriminate].
  destruct (calculate_wave_quality d) as [q|] eqn:Hq; [ | discriminate].
  destruct (getitem d "location_name"); [ | discriminate].
  destruct (getitem d "wave_height"); [ | discriminate].
  intros [= <- <-]. split; [reflexivity | exact Hq].
Qed.

(** The loop never raises; it appends, in the order of the identifiers, one
    entry for each identifier whose entry could be built. *)
Lemma collect_spots_runs (ids : list string) :
  forall (acc : list spot) (w : world),
    exists added w',
      collect_spots ids acc w = (Ok (acc ++ added), w') /\
      map spot_location_id added `sublist_of` ids /\
      Forall scored_by_record added.
Proof.
  induction ids as [|location_id rest IH]; intros acc w.
  - exists [], w. rewrite app_nil_r. repeat split; constructor.
  - cbn [collect_spots]. unfold bind at 1. unfold try_except, bind at 1.
    destruct (rank_one location_id w) as [[entry|e] w1] eqn:Hone.
    + destruct (rank_one_entry _ _ _ _ Hone) as [Hid Hsc].
      unfold ret at 1.
      destruct (IH (acc ++ [entry]) w1) as (added & w' & Hrun & Hsub & Hall).
      exists (entry :: added), w'. rewrite Hrun, <- app_assoc.
      split; [reflexivity | ]. split.
      * cbn [map]. rewrite Hid. apply sublist_skip, Hsub.
      * constructor; assumption.
    + unfold bind at 1, print, ret. 
      match goal with
      | |- context [collect_spots rest acc ?w0] =>
          destruct (IH acc w0) as (added & w' & Hrun & Hsub & Hall)
      end.
      exists added, w'. rewrite Hrun.
      split; [reflexivity | ]. split; [apply sublist_cons, Hsub | exact Hall].
Qed.

(** C2. The rankings builder always returns.  What it returns is the list of
    fetched entries (one per registry key, in registry order, minus the keys
    whose entry could not be built) rearranged so that quality scores
    descend; it is no longer than the registry, and entries with equal scores
    stand in the order in which they were fetched. *)
Theorem rankings_sorted_and_stable (w : world) :
  exists fetched ranked w',
    collect_spots (registry_keys SURF_LOCATIONS) [] w = (Ok fetched, w') /\
    sort_surf_spots_by_conditions w = (Ok ranked, w') /\
    map spot_location_id fetched `sublist_of` registry_keys SURF_LOCATIONS /\
    Forall scored_by_record fetched /\
    Permutation fetched ranked /\
    (length ranked <= length SURF_LOCATIONS)%nat /\
    descending ranked /\
    (forall q, with_score q ranked = with_score q fetched).
Proof.
  destruct (collect_spots_runs (registry_keys SURF_LOCATIONS) [] w)
    as (fetched & w' & Hrun & Hsub & Hall).
  cbn [app] in Hrun.
  destruct (bubble_sort_correct fetched) as (ranked & Hsort & Hperm & Hdesc & Hst).
  exists fetched, ranked, w'.
  split; [exact Hrun | ]. split.
  { unfold sort_surf_spots_by_conditions, bind, lift.
    rewrite Hrun, Hsort. reflexivity. }
  split; [exact Hsub | ]. split; [exact Hall | ]. split; [exact Hperm | ].
  split; [ | split; [exact Hdesc | exact Hst]].
  rewrite <- (Permutation_length Hperm).
  apply sublist_length in Hsub. rewrite length_map in Hsub.
  unfold registry_keys in Hsub. rewrite length_map in Hsub. exact Hsub.
Qed.

End Sorting.

(** * Further properties of the quality scorer *)

Section ScorerEdges.

Local Open Scope Q_scope.

Lemma chained_le_numeric (lo hi : Q) (v : value) (b : bool) :
  chained_le lo v hi = Ok b -> numeric v.
Proof.
  unfold chained_le, float_le_value, numeric.
  destruct (as_number v); [eauto | discriminate].
Qed.

Lemma value_le_float_numeric (v : value) (c : Q) (b : bool) :
  value_le_float v c = Ok b -> numeric v.
Proof.
  unfold value_le_float, numeric.
  destruct (as_number v); [eauto | discriminate].
Qed.

Lemma swell_test_numeric (h p : value) (b : bool) :
  and_then (value_ge_float h 3) (value_ge_float p 10) = Ok b -> numeric h.
Proof.
  unfold and_then, value_ge_float, numeric.
  destruct (as_number h); [eauto | discriminate].
Qed.

(** X1. Whenever the scorer returns, the score is between 30 and 100: each
    factor contributes at least its lowest entry. *)
Theorem score_between_30_and_100 (d : dict) (s : Q) :
  calculate_wave_quality d = Ok s -> 30 <= s /\ s <= 100.
Proof.
  unfold calculate_wave_quality.
  destruct (raw_score d) as [raw|] eqn:Hraw; cbn [bind_r]; [ | discriminate].
  destruct (raw_score_range _ _ Hraw) as [Hlo Hhi].
  rewrite (py_min_below _ _ Hhi). intros [= <-]. split; assumption.
Qed.

Lemma score_between_30_and_100_witness :
  calculate_wave_quality scenario_30 = Ok 30 /\ (30 <= 30 /\ 30 <= 100).
Proof.
  split; [reflexivity | ].
  apply (score_between_30_and_100 scenario_30 30). reflexivity.
Defined.

(** X2. The scorer returns a score only for a dictionary that has all five
    scored fields, with numbers (int, float or bool) under wave height, wave
    period, wind speed and swell height. *)
Theorem score_requires_numeric_fields (d : dict) (s : Q) :
  calculate_wave_quality d = Ok s ->
  exists wh wp ws sh sp,
    d !! "wave_height"%string = Some wh /\ numeric wh /\
    d !! "wave_period"%string = Some wp /\ numeric wp /\
    d !! "wind_speed"%string = Some ws /\ numeric ws /\
    d !! "swell_height"%string = Some sh /\ numeric sh /\
    d !! "swell_period"%string = Some sp.
Proof.
  unfold calculate_wave_quality, raw_score, getitem.
  destruct (d !! "wave_height"%string) as [wh|]; cbn [bind_r]; [ | discriminate].
  destruct (chained_le 3 wh 8) as [b1|] eqn:H1; cbn [bind_r]; [ | discriminate].
  apply chained_le_numeric in H1.
  match goal with
  | |- context [bind_r ?m _] =>
      match m with
      | (if b1 then _ else _) => destruct m as [q1|]; cbn [bind_r]; [ | discriminate]
      end
  end.
  destruct (d !! "wave_period"%string) as [wp|]; cbn [bind_r]; [ | discriminate].
  destruct (chained_le 10 wp 16) as [b2|] eqn:H2; cbn [bind_r]; [ | discriminate].
  apply chained_le_numeric in H2.
  match goal with
  | |- context [bind_r ?m _] =>
      match m with
      | (if b2 then _ else _) => destruct m as [q2|]; cbn [bind_r]; [ | discriminate]
      end
  end.
  destruct (d !! "wind_speed"%string) as [ws|]; cbn [bind_r]; [ | discriminate].
  destruct (value_le_float ws 10) as [b3|] eqn:H3; cbn [bind_r]; [ | discriminate].
  apply value_le_float_numeric in H3.
  match goal with
  | |- context [bind_r ?m _] =>
      match m with
      | (if b3 then _ else _) => destruct m as [q3|]; cbn [bind_r]; [ | discriminate]
      end
  end.
  destruct (d !! "swell_height"%string) as [sh|]; cbn [bind_r]; [ | discriminate].
  destruct (d !! "swell_period"%string) as [sp|]; cbn [bind_r]; [ | discriminate].
  destruct (and_then (value_ge_float sh 3) (value_ge_float sp 10))
    as [b4|] eqn:H4; cbn [bind_r]; [ | discriminate].
  apply swell_test_numeric in H4.
  intros _. exists wh, wp, ws, sh, sp. repeat split; assumption.
Qed.

Lemma score_requires_numeric_fields_witness :
  calculate_wave_quality scenario_100 = Ok 100 /\
  exists wh wp ws sh sp,
    scenario_100 !! "wave_height"%string = Some wh /\ numeric wh /\
    scenario_100 !! "wave_period"%string = Some wp /\ numeric wp /\
    scenario_100 !! "wind_speed"%string = Some ws /\ numeric ws /\
    scenario_100 !! "swell_height"%string = Some sh /\ numeric sh /\
    scenario_100 !! "swell_period"%string = Some sp.
Proof.
  split; [reflexivity | ].
  apply (score_requires_numeric_fields scenario_100 100). reflexivity.
Defined.

Lemma swell_test_short_circuit (h p : value) (x : pyfloat) :
  as_number h = Some x -> float_le (Fin 3) x = false ->
  and_then (value_ge_float h 3) (value_ge_float p 10) = Ok false.
Proof.
  intros Hh Hx. unfold and_then, value_ge_float. rewrite Hh. cbn [bind_r].
  rewrite Hx. reflexivity.
Qed.

(** X3. The swell test short-circuits: when the swell height is a number that
    is not at least 3, the swell period is looked up but never compared, so
    the outcome of the scorer is the same whatever is stored under it, a
    string or a null included. *)
Theorem swell_period_ignored_below_3 (d : dict) (h : value) (x : pyfloat)
    (p1 p2 : value) :
  d !! "swell_height"%string = Some h ->
  as_number h = Some x ->
  float_le (Fin 3) x = false ->
  calculate_wave_quality (<["swell_period"%string := p1]> d) =
  calculate_wave_quality (<["swell_period"%string := p2]> d).
Proof.
  intros Hd Hh Hx. unfold calculate_wave_quality, raw_score, getitem.
  rewrite !lookup_insert_eq.
  rewrite !(lookup_insert_ne _ "swell_period"%string) by discriminate.
  rewrite Hd.
  destruct (d !! "wave_height"%string); cbn [bind_r]; [ | reflexivity].
  match goal with |- context [bind_r ?m _] =>
    destruct m; cbn [bind_r]; [ | reflexivity] end.
  destruct (d !! "wave_period"%string); cbn [bind_r]; [ | reflexivity].
  match goal with |- context [bind_r ?m _] =>
    destruct m; cbn [bind_r]; [ | reflexivity] end.
  destruct (d !! "wind_speed"%string); cbn [bind_r]; [ | reflexivity].
  match goal with |- context [bind_r ?m _] =>
    destruct m; cbn [bind_r]; [ | reflexivity] end.
  rewrite !(swell_test_short_circuit h _ x Hh Hx). reflexivity.
Qed.

Lemma swell_period_ignored_below_3_witness :
  scenario_30 !! "swell_height"%string = Some (VInt 1) /\
  as_number (VInt 1) = Some (Fin 1) /\
  float_le (Fin 3) (Fin 1) = false /\
  calculate_wave_quality (<["swell_period"%string := VStr "long"]> scenario_30) =
  calculate_wave_quality (<["swell_period"%string := VNone]> scenario_30).
Proof.
  split; [reflexivity | ]. split; [reflexivity | ]. split; [reflexivity | ].
  apply (swell_period_ignored_below_3 scenario_30 (VInt 1) (Fin 1));
    reflexivity.
Defined.

Lemma float_le_trans_const (x y : pyfloat) (c : Q) :
  float_le x y = true -> float_le y (Fin c) = true -> float_le x (Fin c) = true.
Proof.
  destruct x as [a| | |], y as [b| | |]; cbn [float_le]; try discriminate;
    try reflexivity.
  intros H1 H2. apply Qle_bool_iff in H1, H2. apply Qle_bool_iff.
  eapply Qle_trans; eassumption.
Qed.

Lemma wind_rule_antitone (x y : pyfloat) :
  float_le x y = true -> wind_rule y <= wind_rule x.
Proof.
  intros Hxy. unfold wind_rule.
  pose proof (float_le_trans_const x y 10 Hxy) as H10.
  pose proof (float_le_trans_const x y 15 Hxy) as H15.
  destruct (float_le y (Fin 10)).
  - rewrite H10 by reflexivity. apply Qle_refl.
  - destruct (float_le y (Fin 15)).
    + rewrite H15 by reflexivity. destruct (float_le x (Fin 10)); discriminate.
    + destruct (float_le x (Fin 10)), (float_le x (Fin 15)); discriminate.
Qed.

(** X4. Less wind never scores worse: of two conditions records that differ
    in wind speed only, the one whose wind speed is lower or equal scores at
    least as much as the other. *)
Theorem score_antitone_in_wind_speed (r : ConditionsRecord) (x y : pyfloat) :
  float_le x y = true ->
  exists sx sy,
    calculate_wave_quality (to_dict (with_wind_speed x r)) = Ok sx /\
    calculate_wave_quality (to_dict (with_wind_speed y r)) = Ok sy /\
    sy <= sx.
Proof.
  intros Hxy. do 2 eexists. split; [apply score_on_record | ].
  split; [apply score_on_record | ].
  cbn [with_wind_speed cr_wave_height cr_wave_period cr_wind_speed
       cr_swell_height cr_swell_period].
  apply Qplus_le_compat; [ | apply Qle_refl].
  apply Qplus_le_compat; [apply Qle_refl | apply wind_rule_antitone, Hxy].
Qed.

Lemma score_antitone_in_wind_speed_witness :
  float_le (Fin 9) (Fin 14) = true /\
  exists sx sy,
    calculate_wave_quality (to_dict (with_wind_speed (Fin 9) sample_dawn)) = Ok sx /\
    calculate_wave_quality (to_dict (with_wind_speed (Fin 14) sample_dawn)) = Ok sy /\
    sy <= sx.
Proof.
  split; [reflexivity | ].
  apply (score_antitone_in_wind_speed sample_dawn (Fin 9) (Fin 14)).
  reflexivity.
Defined.

(** X5. A NaN is never in range: a record whose wind speed is NaN scores no
    more than the same record with any other wind speed. *)
Theorem score_nan_wind_is_worst (r : ConditionsRecord) (x : pyfloat) :
  exists sn sx,
    calculate_wave_quality (to_dict (with_wind_speed NaN r)) = Ok sn /\
    calculate_wave_quality (to_dict (with_wind_speed x r)) = Ok sx /\
    sn <= sx.
Proof.
  do 2 eexists. split; [apply score_on_record | ].
  split; [apply score_on_record | ].
  cbn [with_wind_speed cr_wave_height cr_wave_period cr_wind_speed
       cr_swell_height cr_swell_period].
  apply Qplus_le_compat; [ | apply Qle_refl].
  apply Qplus_le_compat; [apply Qle_refl | ].
  unfold wind_rule. cbn [float_le].
  destruct x as [q| | |]; cbn [float_le];
    try (destruct (Qle_bool q 10), (Qle_bool q 15)); discriminate.
Qed.

End ScorerEdges.

(** * Further properties of the conditions fetcher *)

Section FetcherPaths.

(** The generator makes nine draws and clock readings and nothing else. *)
Lemma generate_mock_effects (location : Location) (w : world) :
  exists wave_height wave_period wave_direction wind_speed wind_direction
         temperature swell_direction tide_height timestamp,
    generate_mock_surf_data location w =
      (Ok (conditions_dict
             (VStr (name location)) (VLit wave_height) (VLit wave_period)
             (VStr wave_direction) (VLit wind_speed) (VStr wind_direction)
             (VLit temperature) (VLit wave_height) (VLit wave_period)
             (VStr swell_direction) (VLit tide_height) (VStr timestamp)),
       Nat.iter 9 advance w).
Proof.
  unfold generate_mock_surf_data, bind, ret, random_uniform_round, datetime_now.
  repeat match goal with
         | |- context [random_choice ?l ?w0] =>
             let s := fresh "s" in
             destruct (random_choice_runs l w0 ltac:(discriminate)) as [s ->]
         end.
  do 9 eexists. reflexivity.
Qed.

Lemma mock_record_for (location : Location) (w : world) :
  exists d,
    generate_mock_surf_data location w = (Ok d, Nat.iter 9 advance w) /\
    record_for location d /\
    exists raw, raw_score d = Ok raw.
Proof.
  destruct (generate_mock_effects location w)
    as (wh & wp & wd & ws & wdir & t & sd & th & ts & E).
  eexists. split; [exact E | ]. split.
  - split; [reflexivity | ]. exists (VLit wh), (VLit wp).
    repeat split; reflexivity.
  - eexists.
    apply (raw_score_on_floats _ (Fin wh) (Fin wp) (Fin ws) (Fin wh) (Fin wp));
      reflexivity.
Qed.

(** The [try] block leaves the oracle and standard output alone; a record it
    returns is for the registered location. *)
Lemma provider_outcome (location_id : string) (w : world)
    (r : result dict) (w1 : world) :
  fetch_from_provider location_id w = (r, w1) ->
  env w1 = env w /\ stdout w1 = stdout w /\
  match r with
  | Ok d => exists loc,
      registry_get SURF_LOCATIONS location_id = Some loc /\ record_for loc d
  | Raise _ => True
  end.
Proof.
  unfold fetch_from_provider.
  destruct (registry_get SURF_LOCATIONS location_id) as [loc|];
    [ | unfold lift; intros [= <- <-]; auto].
  unfold bind, datetime_now, surf_api_key, requests_get, lift, ret.
  cbv beta iota.
  destruct (marine_service _ _ _) as [rsp|e]; [ | intros [= <- <-]; auto].
  destruct (status_code rsp =? 200)%Z.
  2:{ destruct (mock_record_for loc (advance (advance (advance w))))
        as (d0 & E & Hrec & _).
      rewrite E. intros [= <- <-]. repeat split. eauto. }
  destruct (json rsp) as [data|]; [ | intros [= <- <-]; auto].
  match goal with
  | |- context [bind_r (subscript_key data "data") ?k] =>
      destruct (bind_r (subscript_key data "data") k) as [current|];
        [ | intros [= <- <-]; auto]
  end.
  destruct (noaa current "waveHeight" (VLit 3)) as [v1|];
    [ | intros [= <- <-]; auto].
  destruct (noaa current "wavePeriod" (VLit 10)) as [v2|];
    [ | intros [= <- <-]; auto].
  destruct (noaa current "waveDirection" (VStr "SW")) as [v3|];
    [ | intros [= <- <-]; auto].
  destruct (noaa current "windSpeed" (VLit 10)) as [v4|];
    [ | intros [= <- <-]; auto].
  destruct (noaa current "windDirection" (VStr "NW")) as [v5|];
    [ | intros [= <- <-]; auto].
  destruct (noaa current "airTemperature" (VLit 20)) as [v6|];
    [ | intros [= <- <-]; auto].
  intros [= <- <-]. repeat split. exists loc. split; [reflexivity | ].
  split; [reflexivity | ]. exists v1, v2. repeat split; reflexivity.
Qed.

Lemma fallback_outcome (location_id : string) (e : exn) (w : world) :
  exists d loc,
    fetch_fallback location_id e w =
      (Ok d, Nat.iter 9 advance (logged ("API Error: " ++ str_exn e) w)) /\
    reported_location location_id loc /\ record_for loc d.
Proof.
  unfold fetch_fallback, bind, lift. cbn [print].
  change (registry_getitem SURF_LOCATIONS "malibu") with
    (Ok {| name := "Malibu"; lat := 340370 # 10000;
           lon := - (1186770 # 10000);
           description := "Famous point break in Southern California" |}).
  cbn [bind_r]. unfold reported_location, logged. cbn [print snd].
  destruct (registry_get SURF_LOCATIONS location_id) as [loc|] eqn:Hreg;
    cbn [default from_option id].
  - match goal with |- context [generate_mock_surf_data loc ?w0] =>
      destruct (mock_record_for loc w0) as (d & E & Hrec & _) end.
    exists d, loc. rewrite E. auto.
  - match goal with |- context [generate_mock_surf_data ?l ?w0] =>
      destruct (mock_record_for l w0) as (d & E & Hrec & _) end.
    eexists d, _. rewrite E. split; [reflexivity | ]. split; [ | exact Hrec].
    right. split; reflexivity.
Qed.

(** Every outcome of the fetcher at once. *)
Lemma fetch_outcome (location_id : string) (w : world) :
  exists d w' loc lines,
    get_surf_data_from_api location_id w = (Ok d, w') /\
    env w' = env w /\
    stdout w' = (stdout w ++ lines)%list /\ (length lines <= 1)%nat /\
    reported_location location_id loc /\ record_for loc d.
Proof.
  unfold get_surf_data_from_api, try_except.
  destruct (fetch_from_provider location_id w) as [[d|e] w1] eqn:E;
    destruct (provider_outcome _ _ _ _ E) as (Henv & Hout & Hr).
  - destruct Hr as (loc & Hreg & Hrec).
    exists d, w1, loc, []. rewrite app_nil_r.
    repeat split; try assumption; [cbn; lia | left; exact Hreg | apply Hrec..].
  - destruct (fallback_outcome location_id e w1) as (d & loc & Hf & Hloc & Hrec).
    exists d, (Nat.iter 9 advance (logged ("API Error: " ++ str_exn e) w1)),
           loc, ["API Error: " ++ str_exn e].
    split; [exact Hf | ]. split; [cbn; exact Henv | ].
    split; [cbn; rewrite Hout; reflexivity | ].
    split; [cbn; lia | ]. split; assumption.
Qed.

(** X6. On every path, provider or synthetic, the fetched record repeats
    its wave height as swell height and its wave period as swell period. *)
Theorem fetched_swell_mirrors_wave (location_id : string) (w : world) :
  exists d w',
    get_surf_data_from_api location_id w = (Ok d, w') /\
    swell_mirrors_wave d.
Proof.
  destruct (fetch_outcome location_id w)
    as (d & w' & loc & lines & E & _ & _ & _ & _ & _ & Hm).
  exists d, w'. split; assumption.
Qed.

(** X7. The fetched record is named after the requested location when that
    one is registered, on the provider path as on either fallback, and after
    Malibu only when it is not. *)
Theorem fetched_record_names_location (location_id : string) (w : world) :
  exists d w' loc,
    get_surf_data_from_api location_id w = (Ok d, w') /\
    reported_location location_id loc /\
    d !! "location_name" = Some (VStr (name loc)).
Proof.
  destruct (fetch_outcome location_id w)
    as (d & w' & loc & lines & E & _ & _ & _ & Hloc & Hn & _).
  exists d, w', loc. repeat split; assumption.
Qed.

(** X8. One call to the fetcher writes at most one line to standard output
    and keeps what was there. *)
Theorem fetch_logs_at_most_one_line (location_id : string) (w : world) :
  exists d w' lines,
    get_surf_data_from_api location_id w = (Ok d, w') /\
    stdout w' = (stdout w ++ lines)%list /\ (length lines <= 1)%nat.
Proof.
  destruct (fetch_outcome location_id w)
    as (d & w' & loc & lines & E & Henv & Hout & Hlen & _).
  exists d, w', lines. repeat split; assumption.
Qed.

(** X9. An empty answer is all defaults: when the marine service answers
    200 with a payload whose [data] is empty (or otherwise falsy), the record
    for a registered location holds 3.0, 10.0 and "SW" for waves and swell,
    10.0 and "NW" for wind, 20.0 for the temperature and 0.5 for the tide, and
    nothing is logged. *)
Theorem empty_payload_gives_defaults (location_id : string) (loc : Location)
    (w : world) :
  registry_get SURF_LOCATIONS location_id = Some loc ->
  (forall n rq, exists rsp data rows,
      marine_service (env w) n rq = Ok rsp /\
      status_code rsp = 200%Z /\
      json rsp = Ok data /\
      subscript_key data "data" = Ok rows /\
      truthy rows = false) ->
  exists ts w',
    get_surf_data_from_api location_id w =
      (Ok (conditions_dict
             (VStr (name loc)) (VLit 3) (VLit 10) (VStr "SW") (VLit 10)
             (VStr "NW") (VLit 20) (VLit 3) (VLit 10) (VStr "SW")
             (VLit (1 # 2)) (VStr ts)), w') /\
    stdout w' = stdout w.
Proof.
  intros Hreg Hsvc.
  unfold get_surf_data_from_api, try_except, fetch_from_provider.
  rewrite Hreg.
  unfold bind, datetime_now, surf_api_key, requests_get, lift, ret.
  cbv beta iota. cbn [env advance tick].
  match goal with
  | |- context [marine_service (env w) ?n ?rq] =>
      destruct (Hsvc n rq) as (rsp & data & rows & -> & Hst & Hj & Hrows & Hf)
  end.
  rewrite Hst, Hj. cbn [Z.eqb Pos.eqb]. rewrite Hrows. cbn [bind_r].
  rewrite Hf. rewrite !noaa_on_empty. do 2 eexists. split; reflexivity.
Qed.

Lemma empty_payload_gives_defaults_witness :
  registry_get SURF_LOCATIONS "jaws" =
    Some {| name := "Jaws (Peahi)"; lat := 209333 # 10000;
            lon := - (1563000 # 10000);
            description := "Epic big wave spot on Maui" |} /\
  exists ts w',
    get_surf_data_from_api "jaws" calm_world =
      (Ok (conditions_dict
             (VStr "Jaws (Peahi)") (VLit 3) (VLit 10) (VStr "SW") (VLit 10)
             (VStr "NW") (VLit 20) (VLit 3) (VLit 10) (VStr "SW")
             (VLit (1 # 2)) (VStr ts)), w') /\
    stdout w' = stdout calm_world.
Proof.
  split; [reflexivity | ].
  apply (empty_payload_gives_defaults "jaws"
           {| name := "Jaws (Peahi)"; lat := 209333 # 10000;
              lon := - (1563000 # 10000);
              description := "Epic big wave spot on Maui" |} calm_world).
  - reflexivity.
  - intros n rq. do 3 eexists.
    split; [reflexivity | ]. split; [reflexivity | ].
    split; [reflexivity | ]. split; reflexivity.
Defined.

(** X10. A status other than 200 is a silent fallback: the record for a
    registered location is the synthetic one for that same location, and
    nothing is written to standard output. *)
Theorem other_status_falls_back_silently (location_id : string)
    (loc : Location) (w : world) :
  registry_get SURF_LOCATIONS location_id = Some loc ->
  (forall n rq, exists rsp,
      marine_service (env w) n rq = Ok rsp /\ status_code rsp <> 200%Z) ->
  exists d w0 w',
    get_surf_data_from_api location_id w = (Ok d, w') /\
    generate_mock_surf_data loc w0 = (Ok d, w') /\
    stdout w0 = stdout w /\ stdout w' = stdout w.
Proof.
  intros Hreg Hsvc.
  unfold get_surf_data_from_api, try_except, fetch_from_provider.
  rewrite Hreg.
  unfold bind, datetime_now, surf_api_key, requests_get, lift, ret.
  cbv beta iota. cbn [env advance tick].
  match goal with
  | |- context [marine_service (env w) ?n ?rq] =>
      destruct (Hsvc n rq) as (rsp & -> & Hst)
  end.
  apply Z.eqb_neq in Hst. rewrite Hst.
  match goal with
  | |- context [generate_mock_surf_data loc ?w0] =>
      destruct (mock_record_for loc w0) as (d & E & _); rewrite E;
      exists d, w0, (Nat.iter 9 advance w0)
  end.
  repeat split; assumption || reflexivity.
Qed.

Lemma other_status_falls_back_silently_witness :
  registry_get SURF_LOCATIONS "waimea" =
    Some {| name := "Waimea Bay"; lat := 216389 # 10000;
            lon := - (1580667 # 10000);
            description := "Big wave spot on North Shore" |} /\
  exists d w0 w',
    get_surf_data_from_api "waimea" gateway_down_world = (Ok d, w') /\
    generate_mock_surf_data
      {| name := "Waimea Bay"; lat := 216389 # 10000;
         lon := - (1580667 # 10000);
         description := "Big wave spot on North Shore" |} w0 = (Ok d, w') /\
    stdout w0 = stdout gateway_down_world /\
    stdout w' = stdout gateway_down_world.
Proof.
  split; [reflexivity | ].
  apply (other_status_falls_back_silently "waimea" _ gateway_down_world).
  - reflexivity.
  - intros n rq. eexists. split; [reflexivity | discriminate].
Defined.

(** X11. A failed request or an undecodable 200 body is a logged fallback:
    the exception is reported in one line ["API Error: ..."], and the record
    for a registered location is the synthetic one for that same location. *)
Theorem failed_request_falls_back_logged (location_id : string)
    (loc : Location) (e : exn) (w : world) :
  registry_get SURF_LOCATIONS location_id = Some loc ->
  (forall n rq,
      marine_service (env w) n rq = Raise e \/
      exists rsp, marine_service (env w) n rq = Ok rsp /\
                  status_code rsp = 200%Z /\ json rsp = Raise e) ->
  exists d w0 w',
    get_surf_data_from_api location_id w = (Ok d, w') /\
    generate_mock_surf_data loc w0 = (Ok d, w') /\
    stdout w' = (stdout w ++ [("API Error: " ++ str_exn e)%string])%list.
Proof.
  intros Hreg Hsvc.
  unfold get_surf_data_from_api, try_except, fetch_from_provider.
  rewrite Hreg.
  unfold bind at 1 2 3 4, datetime_now, surf_api_key, requests_get.
  cbv beta iota. cbn [env advance tick].
  assert (Hfb : forall w1, stdout w1 = stdout w ->
            exists d w0 w',
              fetch_fallback location_id e w1 = (Ok d, w') /\
              generate_mock_surf_data loc w0 = (Ok d, w') /\
              stdout w' = (stdout w ++ [("API Error: " ++ str_exn e)%string])%list).
  { intros w1 Hout. unfold fetch_fallback, bind, lift. cbn [print].
    change (registry_getitem SURF_LOCATIONS "malibu") with
      (Ok {| name := "Malibu"; lat := 340370 # 10000;
             lon := - (1186770 # 10000);
             description := "Famous point break in Southern California" |}).
    cbn [bind_r]. rewrite Hreg. cbn [default from_option id].
    match goal with
    | |- context [generate_mock_surf_data loc ?w0] =>
        destruct (mock_record_for loc w0) as (d & E & _); rewrite E;
        exists d, w0, (Nat.iter 9 advance w0)
    end.
    split; [reflexivity | ]. split; [exact E | ]. cbn. rewrite Hout.
    reflexivity. }
  match goal with
  | |- context [marine_service (env w) ?n ?rq] =>
      destruct (Hsvc n rq) as [-> | (rsp & -> & Hst & Hj)]
  end.
  - apply Hfb. reflexivity.
  - rewrite Hst. cbn [Z.eqb Pos.eqb]. unfold bind, lift. rewrite Hj.
    apply Hfb. reflexivity.
Qed.

Lemma failed_request_falls_back_logged_witness :
  registry_get SURF_LOCATIONS "pipeline" =
    Some {| name := "Pipeline"; lat := 216644 # 10000;
            lon := - (1580533 # 10000);
            description := "World-famous reef break on North Shore" |} /\
  exists d w0 w',
    get_surf_data_from_api "pipeline" garbled_world = (Ok d, w') /\
    generate_mock_surf_data
      {| name := "Pipeline"; lat := 216644 # 10000;
         lon := - (1580533 # 10000);
         description := "World-famous reef break on North Shore" |} w0
      = (Ok d, w') /\
    stdout w' =
      (stdout garbled_world ++
         [("API Error: " ++
           str_exn (ValueError "Expecting value: line 1 column 1 (char 0)"))%string])%list.
Proof.
  split; [reflexivity | ].
  apply (failed_request_falls_back_logged "pipeline" _
           (ValueError "Expecting value: line 1 column 1 (char 0)")
           garbled_world).
  - reflexivity.
  - intros n rq. right. eexists. split; [reflexivity | ]. split; reflexivity.
Defined.

End FetcherPaths.

(** * Further properties of the narrative reporter *)

Section ReporterPaths.

(** With the prompt fields in place the [try] block is decided by the answer
    of the text service to one request. *)
Lemma analyze_try_by_service (surf_data : dict) (w : world) :
  Forall (fun k => is_Some (surf_data !! k)) PROMPT_FIELDS ->
  exists rq,
    analyze_try surf_data w =
      match text_service (env w) (tick w) rq with
      | Ok (c :: _) =>
          (Ok (report_dict c surf_data
                 (isoformat (clock (env w) (S (tick w))))),
           advance (advance w))
      | Ok [] => (Raise (IndexError "list index out of range"), advance w)
      | Raise e => (Raise e, advance w)
      end.
Proof.
  unfold PROMPT_FIELDS. intros H.
  repeat match goal with
         | H : Forall _ (_ :: _) |- _ =>
             let v := fresh "v" in
             let E := fresh "E" in
             apply Forall_cons in H; destruct H as [[v E] H]
         end.
  unfold analyze_try, getitem.
  rewrite E, E0, E1, E2, E3, E4, E5, E6, E7, E8, E9.
  unfold bind, lift, ret, openai_api_key, chat_completions_create, datetime_now.
  cbv beta iota.
  match goal with
  | |- context [text_service (env w) (tick w) ?rq0] => exists rq0
  end.
  destruct (text_service _ _ _) as [[|c rest]|e]; reflexivity.
Qed.

(** X12. When the text service answers, the reporter returns the content of
    the first choice verbatim, paired with the input record, and logs
    nothing.  Only the eleven prompt fields are needed: the record's own
    timestamp is never read. *)
Theorem report_returns_first_choice (surf_data : dict) (w : world)
    (content : value) (rest : list value) :
  Forall (fun k => is_Some (surf_data !! k)) PROMPT_FIELDS ->
  (forall n rq, text_service (env w) n rq = Ok (content :: rest)) ->
  exists ts w',
    analyze_surf_conditions_with_gpt surf_data w =
      (Ok (report_dict content surf_data ts), w') /\
    stdout w' = stdout w.
Proof.
  intros Hall Hsvc.
  destruct (analyze_try_by_service surf_data w Hall) as [rq E].
  unfold analyze_surf_conditions_with_gpt, try_except.
  rewrite E, Hsvc. do 2 eexists. split; reflexivity.
Qed.

Lemma report_returns_first_choice_witness :
  Forall (fun k => is_Some (delete "timestamp" (to_dict sample_dusk) !! k))
         PROMPT_FIELDS /\
  (forall n rq,
     text_service (env calm_world) n rq = Ok [VStr "Clean lines all morning."]) /\
  exists ts w',
    analyze_surf_conditions_with_gpt
      (delete "timestamp" (to_dict sample_dusk)) calm_world =
      (Ok (report_dict (VStr "Clean lines all morning.")
             (delete "timestamp" (to_dict sample_dusk)) ts), w') /\
    stdout w' = stdout calm_world.
Proof.
  assert (H : Forall (fun k => is_Some (delete "timestamp" (to_dict sample_dusk) !! k))
                PROMPT_FIELDS)
    by (repeat constructor; eexists; reflexivity).
  split; [exact H | ]. split; [intros n rq; reflexivity | ].
  apply (report_returns_first_choice _ calm_world _ [] H).
  intros n rq. reflexivity.
Defined.

(** X13. An answer without choices is reported, not raised: the analysis is
    the message of the [IndexError], and one line is logged. *)
Theorem report_on_no_choices (surf_data : dict) (w : world) :
  Forall (fun k => is_Some (surf_data !! k)) PROMPT_FIELDS ->
  (forall n rq, text_service (env w) n rq = Ok []) ->
  exists ts w',
    analyze_surf_conditions_with_gpt surf_data w =
      (Ok (report_dict
             (VStr "Error analyzing conditions: list index out of range")
             surf_data ts), w') /\
    stdout w' = (stdout w ++ ["GPT API Error: list index out of range"])%list.
Proof.
  intros Hall Hsvc.
  destruct (analyze_try_by_service surf_data w Hall) as [rq E].
  unfold analyze_surf_conditions_with_gpt, try_except.
  rewrite E, Hsvc, analyze_except_runs. do 2 eexists. split; reflexivity.
Qed.

Lemma report_on_no_choices_witness :
  Forall (fun k => is_Some (to_dict sample_dawn !! k)) PROMPT_FIELDS /\
  (forall n rq, text_service (env gateway_down_world) n rq = Ok []) /\
  exists ts w',
    analyze_surf_conditions_with_gpt (to_dict sample_dawn) gateway_down_world =
      (Ok (report_dict
             (VStr "Error analyzing conditions: list index out of range")
             (to_dict sample_dawn) ts), w') /\
    stdout w' =
      (stdout gateway_down_world ++
         ["GPT API Error: list index out of range"])%list.
Proof.
  assert (H : Forall (fun k => is_Some (to_dict sample_dawn !! k)) PROMPT_FIELDS)
    by (repeat constructor; eexists; reflexivity).
  split; [exact H | ]. split; [intros n rq; reflexivity | ].
  apply (report_on_no_choices _ gateway_down_world H).
  intros n rq. reflexivity.
Defined.

Ltac missing_here :=
  match goal with
  | E : ?d !! ?k = None |- _ =>
      exists k; do 2 eexists;
      split; [unfold PROMPT_FIELDS; set_solver | ];
      split; [exact E | rewrite analyze_except_runs; reflexivity]
  end.

(** X14. A record that lacks a prompt field is reported, not raised, and
    whatever the text service would answer: the analysis is the error
    message naming a missing field. *)
Theorem report_on_missing_field (surf_data : dict) (w : world) :
  Exists (fun k => surf_data !! k = None) PROMPT_FIELDS ->
  exists k ts w',
    k ∈ PROMPT_FIELDS /\ surf_data !! k = None /\
    analyze_surf_conditions_with_gpt surf_data w =
      (Ok (report_dict
             (VStr ("Error analyzing conditions: " ++ "'" ++ k ++ "'"))
             surf_data ts), w').
Proof.
  intros Hex.
  unfold analyze_surf_conditions_with_gpt, try_except, analyze_try.
  unfold bind, lift, getitem.
  destruct (surf_data !! "location_name") eqn:E1; [ | missing_here].
  destruct (surf_data !! "wave_height") eqn:E2; [ | missing_here].
  destruct (surf_data !! "wave_period") eqn:E3; [ | missing_here].
  destruct (surf_data !! "wave_direction") eqn:E4; [ | missing_here].
  destruct (surf_data !! "wind_speed") eqn:E5; [ | missing_here].
  destruct (surf_data !! "wind_direction") eqn:E6; [ | missing_here].
  destruct (surf_data !! "temperature") eqn:E7; [ | missing_here].
  destruct (surf_data !! "swell_height") eqn:E8; [ | missing_here].
  destruct (surf_data !! "swell_period") eqn:E9; [ | missing_here].
  destruct (surf_data !! "swell_direction") eqn:E10; [ | missing_here].
  destruct (surf_data !! "tide_height") eqn:E11; [ | missing_here].
  exfalso. unfold PROMPT_FIELDS in Hex.
  repeat match goal with
         | H : Exists _ (_ :: _) |- _ =>
             apply Exists_cons in H; destruct H as [H | H]; [congruence | ]
         end.
  inversion Hex.
Qed.

Lemma report_on_missing_field_witness :
  Exists (fun k => scenario_100 !! k = None) PROMPT_FIELDS /\
  exists k ts w',
    k ∈ PROMPT_FIELDS /\ scenario_100 !! k = None /\
    analyze_surf_conditions_with_gpt scenario_100 calm_world =
      (Ok (report_dict
             (VStr ("Error analyzing conditions: " ++ "'" ++ k ++ "'"))
             scenario_100 ts), w').
Proof.
  assert (H : Exists (fun k => scenario_100 !! k = None) PROMPT_FIELDS)
    by (apply Exists_cons_hd; reflexivity).
  split; [exact H | ].
  apply (report_on_missing_field scenario_100 calm_world H).
Defined.

End ReporterPaths.

(** * Further properties of the sort *)

Section SortEdges.

Local Open Scope list_scope.

Lemma bubble_pass_fixes_descending (m : nat) :
  forall l, descending l -> bubble_pass m l = l.
Proof.
  induction m as [|m IH]; intros l Hl; [destruct l; reflexivity | ].
  destruct l as [|a [|b t]]; try reflexivity.
  apply StronglySorted_inv in Hl. destruct Hl as [Hbt Ha].
  apply Forall_cons in Ha. destruct Ha as [Hba _].
  cbn [bubble_pass]. unfold scores_less, Qlt_bool.
  apply Qle_bool_iff in Hba. rewrite Hba. cbn [negb].
  f_equal. apply IH, Hbt.
Qed.

Lemma bubble_rounds_fixes_descending (k : nat) :
  forall l, descending l -> bubble_rounds k l = l.
Proof.
  induction k as [|k IH]; intros l Hl; [reflexivity | ].
  cbn [bubble_rounds]. rewrite bubble_pass_fixes_descending by exact Hl.
  apply IH, Hl.
Qed.

(** X15. A list that already descends by score comes back from the sort
    unchanged. *)
Theorem bubble_sort_fixes_descending (l : list spot) :
  descending l -> bubble_sort l = Ok l.
Proof.
  intros Hl. rewrite bubble_sort_as_rounds.
  f_equal. apply bubble_rounds_fixes_descending, Hl.
Qed.

Lemma bubble_sort_fixes_descending_witness :
  descending [sample_spot "jaws" 90; sample_spot "malibu" 70;
              sample_spot "waimea" 70] /\
  bubble_sort [sample_spot "jaws" 90; sample_spot "malibu" 70;
               sample_spot "waimea" 70] =
    Ok [sample_spot "jaws" 90; sample_spot "malibu" 70; sample_spot "waimea" 70].
Proof.
  assert (H : descending [sample_spot "jaws" 90; sample_spot "malibu" 70;
                          sample_spot "waimea" 70]).
  { unfold descending. repeat constructor; discriminate. }
  split; [exact H | ]. apply (bubble_sort_fixes_descending _ H).
Defined.

(** X16. For any list of entries, of any length, the nested loops never
    index out of range: the sort returns, and what it returns is a
    rearrangement of the input that descends by score and keeps entries with
    equal scores in their input order. *)
Theorem bubble_sort_sorts_any_list (l : list spot) :
  exists ranked,
    bubble_sort l = Ok ranked /\
    Permutation l ranked /\
    length ranked = length l /\
    descending ranked /\
    (forall q, with_score q ranked = with_score q l).
Proof.
  destruct (bubble_sort_correct l) as (ranked & Hs & Hp & Hd & Hst).
  exists ranked. repeat split; try assumption.
  symmetry. apply Permutation_length, Hp.
Qed.

(** X17. Sorting twice is sorting once. *)
Theorem bubble_sort_idempotent (l : list spot) :
  exists ranked, bubble_sort l = Ok ranked /\ bubble_sort ranked = Ok ranked.
Proof.
  destruct (bubble_sort_correct l) as (ranked & Hs & _ & Hd & _).
  exists ranked. split; [exact Hs | ].
  rewrite bubble_sort_as_rounds. f_equal.
  apply bubble_rounds_fixes_descending, Hd.
Qed.

End SortEdges.

(** * Further properties of the rankings builder *)

Section RankingsEdges.

Local Open Scope list_scope.

Lemma registry_keys_distinct : NoDup (registry_keys SURF_LOCATIONS).
Proof.
  apply (bool_decide_unpack _). vm_compute. exact I.
Qed.

(** What the collecting loop guarantees of each entry it appends, given what
    [rank_one] guarantees. *)
Lemma collect_spots_entries (P : spot -> Prop) :
  (forall location_id w e w', rank_one location_id w = (Ok e, w') -> P e) ->
  forall (ids : list string) (acc : list spot) (w : world),
    exists added w',
      collect_spots ids acc w = (Ok (acc ++ added), w') /\
      Forall P added.
Proof.
  intros HP. induction ids as [|location_id rest IH]; intros acc w.
  - exists [], w. rewrite app_nil_r. split; [reflexivity | constructor].
  - cbn [collect_spots]. unfold bind at 1. unfold try_except, bind at 1.
    destruct (rank_one location_id w) as [[entry|e] w1] eqn:Hone.
    + unfold ret at 1.
      destruct (IH (acc ++ [entry]) w1) as (added & w' & Hrun & Hall).
      exists (entry :: added), w'. rewrite Hrun, <- app_assoc.
      split; [reflexivity | ]. constructor; [eapply HP, Hone | exact Hall].
    + unfold bind at 1, print, ret.
      match goal with
      | |- context [collect_spots rest acc ?w0] =>
          destruct (IH acc w0) as (added & w' & Hrun & Hall)
      end.
      exists added, w'. rewrite Hrun. split; [reflexivity | exact Hall].
Qed.

Lemma rank_one_consistent (location_id : string) (w : world) (e : spot)
    (w' : world) :
  rank_one location_id w = (Ok e, w') ->
  copies_record e /\
  (30 <= quality_score e)%Q /\ (quality_score e <= 100)%Q.
Proof.
  unfold rank_one, bind, lift, ret, getitem.
  destruct (get_surf_data_from_api location_id w) as [[d|] w1];
    [ | discriminate].
  destruct (calculate_wave_quality d) as [q|] eqn:Hq; [ | discriminate].
  destruct (d !! "location_name"%string) eqn:E1; [ | discriminate].
  destruct (d !! "wave_height"%string) eqn:E2; [ | discriminate].
  intros [= <- <-]. split; [split; assumption | ].
  cbn [quality_score]. apply (raw_score_range d).
  unfold calculate_wave_quality in Hq.
  destruct (raw_score d) as [raw|] eqn:Hraw; cbn [bind_r] in Hq;
    [ | discriminate].
  rewrite py_min_below in Hq by apply (raw_score_range _ _ Hraw).
  congruence.
Qed.

(** X18. No location is ranked twice: the identifiers of the ranked entries
    are pairwise distinct. *)
Theorem rankings_have_distinct_ids (w : world) :
  exists ranked w',
    sort_surf_spots_by_conditions w = (Ok ranked, w') /\
    NoDup (map spot_location_id ranked).
Proof.
  destruct (collect_spots_runs (registry_keys SURF_LOCATIONS) [] w)
    as (fetched & w' & Hrun & Hsub & _).
  cbn [app] in Hrun.
  destruct (bubble_sort_correct fetched) as (ranked & Hsort & Hperm & _).
  exists ranked, w'. split.
  { unfold sort_surf_spots_by_conditions, bind, lift.
    rewrite Hrun, Hsort. reflexivity. }
  rewrite <- Hperm.
  eapply sublist_NoDup; [apply registry_keys_distinct | exact Hsub].
Qed.

(** X19. Every ranked entry agrees with the record it carries: its name and
    wave height are the record's, and its score, between 30 and 100, is the
    score of that record. *)
Theorem ranked_entries_agree_with_records (w : world) :
  exists ranked w',
    sort_surf_spots_by_conditions w = (Ok ranked, w') /\
    Forall (fun e =>
              copies_record e /\
              (30 <= quality_score e)%Q /\ (quality_score e <= 100)%Q)
           ranked.
Proof.
  destruct (collect_spots_entries _ rank_one_consistent
              (registry_keys SURF_LOCATIONS) [] w)
    as (fetched & w' & Hrun & Hall).
  cbn [app] in Hrun.
  destruct (bubble_sort_correct fetched) as (ranked & Hsort & Hperm & _).
  exists ranked, w'. split.
  { unfold sort_surf_spots_by_conditions, bind, lift.
    rewrite Hrun, Hsort. reflexivity. }
  rewrite <- Hperm. exact Hall.
Qed.

Lemma fallback_synthetic (location_id : string) (e : exn) (w : world) :
  exists d loc,
    fetch_fallback location_id e w =
      (Ok d, Nat.iter 9 advance (logged ("API Error: " ++ str_exn e)%string w)) /\
    record_for loc d /\ exists raw, raw_score d = Ok raw.
Proof.
  unfold fetch_fallback, bind, lift. cbn [print].
  change (registry_getitem SURF_LOCATIONS "malibu") with
    (Ok {| name := "Malibu"; lat := 340370 # 10000;
           lon := - (1186770 # 10000);
           description := "Famous point break in Southern California" |}).
  cbn [bind_r]. unfold logged. cbn [print snd].
  match goal with |- context [generate_mock_surf_data ?l ?w0] =>
    destruct (mock_record_for l w0) as (d & E & Hrec & Hraw) end.
  exists d. eexists. rewrite E. split; [reflexivity | ]. split; eassumption.
Qed.

(** With the provider unavailable every fetch is synthetic, and can be
    scored. *)
Lemma fetch_synthetic (location_id : string) (w : world) :
  provider_unavailable (env w) ->
  exists d w' loc,
    get_surf_data_from_api location_id w = (Ok d, w') /\
    env w' = env w /\ record_for loc d /\ exists raw, raw_score d = Ok raw.
Proof.
  intros Hun.
  assert (Hfb : forall e w1, env w1 = env w ->
            exists d w' loc,
              fetch_fallback location_id e w1 = (Ok d, w') /\
              env w' = env w /\ record_for loc d /\
              exists raw, raw_score d = Ok raw).
  { intros e w1 Henv.
    destruct (fallback_synthetic location_id e w1) as (d & loc & E & Hrec & Hraw).
    exists d. eexists. exists loc. split; [exact E | ].
    split; [cbn; exact Henv | ]. split; assumption. }
  unfold get_surf_data_from_api, try_except, fetch_from_provider.
  destruct (registry_get SURF_LOCATIONS location_id) as [loc|];
    [ | unfold lift; apply Hfb; reflexivity].
  unfold bind, datetime_now, surf_api_key, requests_get, lift, ret.
  cbv beta iota. cbn [env advance tick].
  destruct (marine_service (env w) _ _) as [rsp|e] eqn:Hms;
    [ | apply Hfb; reflexivity].
  apply Hun in Hms. apply Z.eqb_neq in Hms. rewrite Hms.
  match goal with |- context [generate_mock_surf_data loc ?w0] =>
    destruct (mock_record_for loc w0) as (d & E & Hrec & Hraw) end.
  rewrite E. exists d. eexists. exists loc.
  split; [reflexivity | ]. split; [reflexivity | ]. split; assumption.
Qed.

Lemma rank_one_synthetic (location_id : string) (w : world) :
  provider_unavailable (env w) ->
  exists e w',
    rank_one location_id w = (Ok e, w') /\
    env w' = env w /\ spot_location_id e = location_id.
Proof.
  intros Hun.
  destruct (fetch_synthetic location_id w Hun)
    as (d & w' & loc & E & Henv & [Hname Hmir] & raw & Hraw).
  destruct Hmir as (h & p & Hh & _).
  unfold rank_one, bind, lift, ret, calculate_wave_quality, getitem.
  rewrite E, Hraw. cbn [bind_r]. rewrite Hname, Hh.
  do 2 eexists. split; [reflexivity | ]. split; [exact Henv | reflexivity].
Qed.

Lemma collect_spots_all (ids : list string) :
  forall (acc : list spot) (w : world),
    provider_unavailable (env w) ->
    exists added w',
      collect_spots ids acc w = (Ok (acc ++ added), w') /\
      map spot_location_id added = ids.
Proof.
  induction ids as [|location_id rest IH]; intros acc w Hun.
  - exists [], w. rewrite app_nil_r. split; reflexivity.
  - destruct (rank_one_synthetic location_id w Hun)
      as (entry & w1 & Hone & Henv & Hid).
    cbn [collect_spots]. unfold bind at 1. unfold try_except, bind at 1.
    rewrite Hone. unfold ret at 1.
    destruct (IH (acc ++ [entry]) w1) as (added & w' & Hrun & Hids);
      [rewrite Henv; exact Hun | ].
    exists (entry :: added), w'. rewrite Hrun, <- app_assoc.
    split; [reflexivity | ]. cbn [map]. rewrite Hid, Hids. reflexivity.
Qed.

(** X20. With the marine service unavailable (it raises, or answers with a
    status other than 200, every time) nothing is skipped: the rankings hold
    one entry for each registered location. *)
Theorem provider_down_ranks_every_location (w : world) :
  provider_unavailable (env w) ->
  exists ranked w',
    sort_surf_spots_by_conditions w = (Ok ranked, w') /\
    Permutation (registry_keys SURF_LOCATIONS) (map spot_location_id ranked) /\
    length ranked = length SURF_LOCATIONS.
Proof.
  intros Hun.
  destruct (collect_spots_all (registry_keys SURF_LOCATIONS) [] w Hun)
    as (fetched & w' & Hrun & Hids).
  cbn [app] in Hrun.
  destruct (bubble_sort_correct fetched) as (ranked & Hsort & Hperm & _).
  exists ranked, w'. split.
  { unfold sort_surf_spots_by_conditions, bind, lift.
    rewrite Hrun, Hsort. reflexivity. }
  split.
  - rewrite <- Hids. apply Permutation_map, Hperm.
  - rewrite <- (Permutation_length Hperm).
    rewrite <- (length_map spot_location_id), Hids.
    unfold registry_keys. apply length_map.
Qed.

Lemma provider_down_ranks_every_location_witness :
  provider_unavailable (env offline_world) /\
  exists ranked w',
    sort_surf_spots_by_conditions offline_world = (Ok ranked, w') /\
    Permutation (registry_keys SURF_LOCATIONS) (map spot_location_id ranked) /\
    length ranked = length SURF_LOCATIONS.
Proof.
  assert (H : provider_unavailable (env offline_world))
    by (intros n rq rsp Hr; discriminate Hr).
  split; [exact H | ]. apply (provider_down_ranks_every_location _ H).
Defined.

End RankingsEdges.

(** * Properties of the handlers *)

Section Handlers.

Lemma fetch_total_present (location_id : string) (w : world) :
  exists d w',
    get_surf_data_from_api location_id w = (Ok d, w') /\
    all_fields_present d.
Proof.
  unfold get_surf_data_from_api, try_except.
  destruct (fetch_from_provider location_id w) as [[d|e] w1] eqn:E.
  - exists d, w1. split; [reflexivity | ].
    apply (provider_path_cases _ _ _ _ E).
  - destruct (fallback_populated location_id e w1) as (d & w2 & Hf & P).
    exists d, w2. split; [exact Hf | apply populated_present, P].
Qed.

Lemma analyze_total (surf_data : dict) (w : world) :
  exists content ts w',
    analyze_surf_conditions_with_gpt surf_data w =
      (Ok (report_dict content surf_data ts), w').
Proof.
  unfold analyze_surf_conditions_with_gpt, try_except.
  destruct (analyze_try surf_data w) as [[rep|e] w1] eqn:E.
  - destruct (analyze_try_shape _ _ _ _ E) as (c & ts & rq & rest & -> & _).
    eauto.
  - rewrite analyze_except_runs. eauto.
Qed.

(** X21. The handler of [GET /api/surf-data/{id}] never raises its
    [HTTPException]: for any identifier and whatever the services do, it
    returns, and what it returns to the framework is exactly the record the
    fetcher returned, with all twelve fields.  (How the framework then
    encodes that record is outside the statement.) *)
Theorem surf_data_handler_always_returns (location_id : string) (w : world) :
  exists d w',
    get_surf_data location_id w = (Returned d, w') /\
    get_surf_data_from_api location_id w = (Ok d, w') /\
    all_fields_present d.
Proof.
  destruct (fetch_total_present location_id w) as (d & w' & E & Hall).
  exists d, w'. unfold get_surf_data, or_500, bind, ret. rewrite E.
  repeat split; assumption || reflexivity.
Qed.

(** X22. The handler of [GET /api/analysis/{id}] never raises its
    [HTTPException]: it returns a report whose record is the one the fetcher
    returned for that identifier, be the analysis the service's text or an
    error message.  (How the framework then encodes that report is outside
    the statement.) *)
Theorem analysis_handler_always_returns (location_id : string) (w : world) :
  exists d w1 content ts w',
    get_surf_data_from_api location_id w = (Ok d, w1) /\
    analyze_surf_conditions_with_gpt d w1 =
      (Ok (report_dict content d ts), w') /\
    get_surf_analysis location_id w =
      (Returned (report_dict content d ts), w').
Proof.
  destruct (fetch_total_present location_id w) as (d & w1 & E & _).
  destruct (analyze_total d w1) as (content & ts & w' & Ea).
  exists d, w1, content, ts, w'. split; [exact E | ]. split; [exact Ea | ].
  unfold get_surf_analysis, or_500, bind, ret. rewrite E, Ea. reflexivity.
Qed.

(** X23. The handler of [GET /api/rankings] never raises its
    [HTTPException]: it returns the list the rankings builder returned, which
    descends by score and is no longer than the registry, with a timestamp
    read after the ranking was built.  (How the framework then encodes that
    body is outside the statement.) *)
Theorem rankings_handler_always_returns (w : world) :
  exists ranked w1,
    sort_surf_spots_by_conditions w = (Ok ranked, w1) /\
    get_surf_rankings w =
      (Returned {| rankings := ranked;
                   rankings_timestamp := isoformat (clock (env w1) (tick w1)) |},
       advance w1) /\
    descending ranked /\
    (length ranked <= length SURF_LOCATIONS)%nat.
Proof.
  destruct (collect_spots_runs (registry_keys SURF_LOCATIONS) [] w)
    as (fetched & w1 & Hrun & Hsub & _).
  cbn [app] in Hrun.
  destruct (bubble_sort_correct fetched) as (ranked & Hsort & Hperm & Hdesc & _).
  assert (E : sort_surf_spots_by_conditions w = (Ok ranked, w1)).
  { unfold sort_surf_spots_by_conditions, bind, lift.
    rewrite Hrun, Hsort. reflexivity. }
  exists ranked, w1. split; [exact E | ]. split.
  { unfold get_surf_rankings, or_500, bind, datetime_now, ret.
    rewrite E. reflexivity. }
  split; [exact Hdesc | ].
  rewrite <- (Permutation_length Hperm).
  apply sublist_length in Hsub. rewrite length_map in Hsub.
  unfold registry_keys in Hsub. rewrite length_map in Hsub. exact Hsub.
Qed.

Lemma registry_get_listed (reg : list (string * Location)) (k : string) :
  k ∈ registry_keys reg ->
  exists loc, registry_get reg k = Some loc /\ (k, loc) ∈ reg.
Proof.
  unfold registry_keys. induction reg as [|[k' loc'] rest IH]; cbn [map fst].
  - intros H. apply elem_of_nil in H. destruct H.
  - intros H. cbn [registry_get].
    destruct (String.eqb_spec k' k) as [-> | Hne].
    + exists loc'. split; [reflexivity | apply list_elem_of_here].
    + apply elem_of_cons in H. destruct H as [-> | H]; [congruence | ].
      destruct (IH H) as (loc & Hg & Hin).
      exists loc. split; [exact Hg | apply list_elem_of_further, Hin].
Qed.

(** X24. What the handler of [GET /api/locations] lists can be fetched under
    its own name: every listed identifier has an entry in the returned
    location data, and the record fetched for it carries that entry's name,
    never the default location's in its place. *)
Theorem listed_locations_fetch_by_name (w : world) (body : locations_body)
    (location_id : string) :
  get_locations w = (Returned body, w) ->
  location_id ∈ locations body ->
  exists loc d w',
    (location_id, loc) ∈ location_data body /\
    get_surf_data_from_api location_id w = (Ok d, w') /\
    d !! "location_name" = Some (VStr (name loc)).
Proof.
  unfold get_locations. intros [= <-]. cbn [locations location_data].
  intros Hin.
  destruct (registry_get_listed SURF_LOCATIONS location_id Hin)
    as (loc & Hg & Hmem).
  destruct (fetch_outcome location_id w)
    as (d & w' & loc' & lines & E & _ & _ & _ & Hloc & Hn & _).
  exists loc, d, w'. split; [exact Hmem | ]. split; [exact E | ].
  destruct Hloc as [Hl | [Hl _]]; rewrite Hg in Hl; [ | discriminate].
  injection Hl as <-. exact Hn.
Qed.

Lemma listed_locations_fetch_by_name_witness :
  get_locations gateway_down_world =
    (Returned {| locations := registry_keys SURF_LOCATIONS;
                 location_data := SURF_LOCATIONS |}, gateway_down_world) /\
  "teahupoo" ∈ registry_keys SURF_LOCATIONS /\
  exists loc d w',
    (("teahupoo", loc) : string * Location) ∈ SURF_LOCATIONS /\
    get_surf_data_from_api "teahupoo" gateway_down_world = (Ok d, w') /\
    d !! "location_name" = Some (VStr (name loc)).
Proof.
  assert (H : "teahupoo" ∈ registry_keys SURF_LOCATIONS)
    by (apply (bool_decide_unpack _); vm_compute; exact I).
  split; [reflexivity | ]. split; [exact H | ].
  apply (listed_locations_fetch_by_name gateway_down_world
           {| locations := registry_keys SURF_LOCATIONS;
              location_data := SURF_LOCATIONS |} "teahupoo");
    [reflexivity | exact H].
Defined.

End Handlers.
